(** * genius-guru: the tutoring and quiz pipeline of [backend/ai_engine.py]

    A shallow embedding of the Python module and the properties of its
    specification.  Python values produced by [json.loads] are an inductive
    type, exceptions are an error monad, and the one effect of the module,
    the call to the chat model, is a state monad over the log of prompts
    sent.  Calls to [logger] write to the process log only and are left out.

    Strings are byte strings holding UTF-8 text, so the literals of the
    source (which contain emoji) are the literals here; the few operations
    that count code points ([len], iteration and slicing of a [str]) decode
    the bytes. *)

From Stdlib Require Import ZArith List String Ascii Bool Lia.
From Stdlib Require Import DecimalString SpecFloat.
Import ListNotations.
Open Scope string_scope.
Open Scope Z_scope.
Set Warnings "-register-all".

(** ** Exceptions and results *)

(** The exception classes the module can meet.  [RecursionError] is what
    the decoder raises on a text nested deeper than the interpreter's
    recursion limit; it is a [RuntimeError], no [ValueError].
    [Exception_ prefix cause]
    is [Exception(f"{prefix}{str(cause)}")], the shape of every re-raise in
    the module; [ExceptionMsg] is [Exception(msg)]; [ServiceError] is
    whatever the model client raised. *)
Inductive exn : Type :=
| JSONDecodeError
| ValueError (msg : string)
| TypeError
| RecursionError
| KeyError (key : string)
| IndexError
| AttributeError (attr : string)
| ServiceError (msg : string)
| ExceptionMsg (msg : string)
| Exception_ (prefix : string) (cause : exn).

Inductive result (A : Type) : Type :=
| Ok (a : A)
| Raise (e : exn).
Arguments Ok {A} a.
Arguments Raise {A} e.

Definition rbind {A B : Type} (r : result A) (k : A -> result B) : result B :=
  match r with
  | Ok a => k a
  | Raise e => Raise e
  end.

Notation "x <- r ;; k" := (rbind r (fun x => k))
  (at level 61, r at next level, right associativity).

(** [json.JSONDecodeError] is a subclass of [ValueError]: this is the test
    of the clause [except (json.JSONDecodeError, ValueError)]. *)
Definition is_ValueError (e : exn) : bool :=
  match e with
  | JSONDecodeError | ValueError _ => true
  | _ => false
  end.

(** ** Strings *)

Definition nl : string := String (ascii_of_nat 10) EmptyString.
Definition dq : string := String (ascii_of_nat 34) EmptyString.

(** [needle in hay] on two [str]. *)
Fixpoint str_contains (needle hay : string) : bool :=
  String.prefix needle hay ||
  match hay with
  | EmptyString => false
  | String _ rest => str_contains needle rest
  end.

(** A byte [10xxxxxx] continues the code point begun before it. *)
Definition is_continuation (c : ascii) : bool :=
  let n := nat_of_ascii c in (Nat.leb 128 n && Nat.ltb n 192)%bool.

(** The code points of a string, each as a one-character [str]: a byte
    that is not a continuation opens a new character. *)
Fixpoint utf8_chars (s : string) : list string :=
  match s with
  | EmptyString => []
  | String c rest =>
      match utf8_chars rest with
      | [] => [String c EmptyString]
      | ch :: chars =>
          match rest with
          | String d _ =>
              if is_continuation d then String c ch :: chars
              else String c EmptyString :: ch :: chars
          | EmptyString => String c EmptyString :: ch :: chars
          end
      end
  end.

(** [str(n)] for an [int]. *)
Definition str_of_int (n : Z) : string := NilZero.string_of_int (Z.to_int n).

(** ** Python values

    What [json.loads] can return: [None], [bool], [int], [float], [str],
    [list] and [dict] with [str] keys.  A [dict] is the list of its items in
    insertion order; its keys are pairwise distinct. *)
Inductive pyval : Type :=
| PNone
| PBool (b : bool)
| PInt (n : Z)
| PFloat (f : spec_float)
| PStr (s : string)
| PList (items : list pyval)
| PDict (entries : list (string * pyval)).

Fixpoint dict_get (d : list (string * pyval)) (key : string) : option pyval :=
  match d with
  | [] => None
  | (k, v) :: rest => if String.eqb k key then Some v else dict_get rest key
  end.

Definition dict_has (d : list (string * pyval)) (key : string) : bool :=
  match dict_get d key with Some _ => true | None => false end.

(** [d[key] = v]: an existing key keeps its place, a new one goes last. *)
Fixpoint dict_set (d : list (string * pyval)) (key : string) (v : pyval)
  : list (string * pyval) :=
  match d with
  | [] => [(key, v)]
  | (k, w) :: rest =>
      if String.eqb k key then (k, v) :: rest else (k, w) :: dict_set rest key v
  end.

(** *** Equality

    [bool] is a subclass of [int], and [int] and [float] compare by exact
    value. *)
Definition float_eq_int (f : spec_float) (n : Z) : bool :=
  match f with
  | S754_zero _ => n =? 0
  | S754_finite s m e =>
      let v := if s then Z.neg m else Z.pos m in
      if 0 <=? e then n =? v * 2 ^ e else n * 2 ^ (- e) =? v
  | S754_infinity _ | S754_nan => false
  end.

Inductive number : Type :=
| NInt (n : Z)
| NFloat (f : spec_float).

Definition as_number (v : pyval) : option number :=
  match v with
  | PBool b => Some (NInt (Z.b2z b))
  | PInt n => Some (NInt n)
  | PFloat f => Some (NFloat f)
  | _ => None
  end.

Definition number_eq (a b : number) : bool :=
  match a, b with
  | NInt m, NInt n => m =? n
  | NInt m, NFloat f => float_eq_int f m
  | NFloat f, NInt n => float_eq_int f n
  | NFloat f, NFloat g => SFeqb f g
  end.

Definition is_nan (v : pyval) : bool :=
  match v with
  | PFloat S754_nan => true
  | _ => false
  end.

(** [a == b].  Containers compare their elements with the identity
    shortcut of [same_or_eq] below, written out here because the recursion
    is nested. *)
Fixpoint py_eq (a b : pyval) {struct a} : bool :=
  match a with
  | PNone => match b with PNone => true | _ => false end
  | PStr s => match b with PStr t => String.eqb s t | _ => false end
  | PList l =>
      match b with
      | PList m =>
          (fix all2 (l m : list pyval) {struct l} : bool :=
             match l, m with
             | [], [] => true
             | x :: l', y :: m' =>
                 (py_eq x y || (is_nan x && is_nan y)) && all2 l' m'
             | _, _ => false
             end) l m
      | _ => false
      end
  | PDict d =>
      match b with
      | PDict e =>
          (List.length d =? List.length e)%nat &&
          (fix sub (d : list (string * pyval)) {struct d} : bool :=
             match d with
             | [] => true
             | (k, v) :: d' =>
                 match dict_get e k with
                 | Some w => (py_eq v w || (is_nan v && is_nan w)) && sub d'
                 | None => false
                 end
             end) d
      | _ => false
      end
  | PBool _ | PInt _ | PFloat _ =>
      match as_number a, as_number b with
      | Some x, Some y => number_eq x y
      | _, _ => false
      end
  end.

(** [a is b or a == b], the comparison of [in] on a list and of container
    equality.  Among the values of one decoded document, [==] fails to be
    reflexive only on NaN, and the decoder returns one and the same float
    object for every [NaN] literal. *)
Definition same_or_eq (a b : pyval) : bool := py_eq a b || (is_nan a && is_nan b).

(** *** Protocols *)

(** [iter(v)]: the elements of a list, the characters of a string, the keys
    of a dict; other values are not iterable. *)
Definition py_iter (v : pyval) : result (list pyval) :=
  match v with
  | PList l => Ok l
  | PStr s => Ok (map PStr (utf8_chars s))
  | PDict d => Ok (map (fun kv => PStr (fst kv)) d)
  | _ => Raise TypeError
  end.

(** [len(v)]. *)
Definition py_len (v : pyval) : result Z :=
  match v with
  | PList l => Ok (Z.of_nat (List.length l))
  | PStr s => Ok (Z.of_nat (List.length (utf8_chars s)))
  | PDict d => Ok (Z.of_nat (List.length d))
  | _ => Raise TypeError
  end.

(** [x in container]. *)
Definition py_in (x container : pyval) : result bool :=
  match container with
  | PList l => Ok (existsb (fun item => same_or_eq item x) l)
  | PStr s =>
      match x with
      | PStr needle => Ok (str_contains needle s)
      | _ => Raise TypeError
      end
  | PDict d =>
      match x with
      | PStr key => Ok (dict_has d key)
      | PList _ | PDict _ => Raise TypeError
      | _ => Ok false
      end
  | _ => Raise TypeError
  end.

(** [container[key]] for a [str] key: only a dict can be indexed by one. *)
Definition py_getitem (container : pyval) (key : string) : result pyval :=
  match container with
  | PDict d =>
      match dict_get d key with
      | Some v => Ok v
      | None => Raise (KeyError key)
      end
  | _ => Raise TypeError
  end.

(** [container[key] = v] for a [str] key. *)
Definition py_setitem (container : pyval) (key : string) (v : pyval)
  : result pyval :=
  match container with
  | PDict d => Ok (PDict (dict_set d key v))
  | _ => Raise TypeError
  end.

(** The stop index of the slice [[:n]] on a sequence of length [len]. *)
Definition slice_stop (len : nat) (n : Z) : nat :=
  if 0 <=? n then Z.to_nat n else Z.to_nat (Z.of_nat len + n).

(** [v[:n]].  A dict takes no slice. *)
Definition py_slice_to (v : pyval) (n : Z) : result pyval :=
  match v with
  | PList l => Ok (PList (firstn (slice_stop (List.length l) n) l))
  | PStr s =>
      let chars := utf8_chars s in
      Ok (PStr (String.concat "" (firstn (slice_stop (List.length chars) n) chars)))
  | _ => Raise TypeError
  end.

Definition isinstance_list (v : pyval) : bool :=
  match v with
  | PList _ => true
  | _ => false
  end.

(** ** The interpreter's library

    Two functions of the Python runtime are taken as given: [json.loads],
    which returns the decoded document or raises ([JSONDecodeError] on text
    it rejects, [RecursionError] on text nested too deep), and [repr] on
    the values whose rendering is not
    modelled (floats, and lists and dicts, whose [str] is their [repr]). *)
Record PyRuntime : Type := {
  json_loads : string -> result pyval;
  py_repr : pyval -> string
}.

(** [str(v)], which is what an f-string field [{v}] inserts. *)
Definition py_str (rt : PyRuntime) (v : pyval) : string :=
  match v with
  | PStr s => s
  | PNone => "None"
  | PBool true => "True"
  | PBool false => "False"
  | PInt n => str_of_int n
  | PFloat _ | PList _ | PDict _ => py_repr rt v
  end.

(** ** The chat model

    A reply has one of the shapes the module tells apart (lines 43-48): an
    object with a [content] attribute; one with [generations], lists of
    generations each with a [text]; a list, whose items may have a
    [content] or not; anything else.  The attributes are strings.

    [ChatOpenAI] is the construction of the client, which may raise;
    [reply k prompt] is what the model answers to the [k]-th call of the
    process (so that equal prompts may get different answers), or the
    exception the call raises.  The state threaded through the pipeline is
    the list of prompts sent so far. *)
Inductive llm_response : Type :=
| WithContent (content : string)
| WithGenerations (generations : list (list string))
| ResponseList (items : list (option string))
| OtherResponse.

Record Capability : Type := {
  ChatOpenAI : result unit;
  reply : nat -> string -> result llm_response
}.

Definition M (A : Type) : Type := list string -> result A * list string.

Definition mret {A : Type} (a : A) : M A := fun log => (Ok a, log).

Definition mraise {A : Type} (e : exn) : M A := fun log => (Raise e, log).

Definition mbind {A B : Type} (m : M A) (k : A -> M B) : M B :=
  fun log =>
    match m log with
    | (Ok a, log') => k a log'
    | (Raise e, log') => (Raise e, log')
    end.

Definition lift {A : Type} (r : result A) : M A := fun log => (r, log).

(** [try: body / except Exception as e: handler e]. *)
Definition mtry {A : Type} (body : M A) (handler : exn -> M A) : M A :=
  fun log =>
    match body log with
    | (Ok a, log') => (Ok a, log')
    | (Raise e, log') => handler e log'
    end.

Notation "x <~ m ;; k" := (mbind m (fun x => k))
  (at level 61, m at next level, right associativity).

(** [llm([HumanMessage(content=prompt)])]: one call to the model. *)
Definition call_llm (cap : Capability) (prompt : string) : M llm_response :=
  fun log => (reply cap (List.length log) prompt, (log ++ [prompt])%list).

Definition get_llm (cap : Capability) : M unit :=
  match ChatOpenAI cap with
  | Ok client => mret client
  | Raise e => mraise (Exception_ "Failed to initialize AI model: " e)
  end.

(** ** Tutoring *)

(** [_create_tutoring_prompt] (lines 60-83): the f-string, line by line. *)
Definition _create_tutoring_prompt
  (subject level question learning_style background language : string) : string :=
  String.concat nl
    [ "";
      "Subject: " ++ subject;
      "Learning Level: " ++ level;
      "Background Knowledge: " ++ background;
      "Learning Style Preference: " ++ learning_style;
      "Language Preference: " ++ language;
      "";
      "QUESTION:";
      question;
      "";
      "INSTRUCTIONS:";
      "1. Provide a clear, educational explanation that directly addresses the question";
      "2. Tailor your explanation to a " ++ background ++ " student at " ++ level ++ " level";
      "3. Use " ++ language ++ " as the primary language";
      "4. Format your response with appropriate markdown for readability";
      "";
      "LEARNING STYLE ADAPTATIONS:";
      "- For Visual learners: Include descriptions of visual concepts, diagrams, or mental models";
      "- For Text-based learners: Provide clear, structured explanations with defined concepts";
      "- For Hands-on learners: Include practical examples, exercises, or applications";
      "";
      "Your explanation should be educational, accurate, and engaging.";
      "" ].

(** The two suffixes of [format_tutoring_response] (lines 87 and 89). *)
Definition visual_tip : string :=
  nl ++ nl ++ "📝 *Note: Visualize these concepts as you read for better retention.*".

Definition hands_on_tip : string :=
  nl ++ nl ++ "🛠️ *Tip: Try working through the examples yourself to reinforce your learning.*".

(** [format_tutoring_response] (lines 85-91). *)
Definition format_tutoring_response (content learning_style : string) : string :=
  if String.eqb learning_style "Visual" then content ++ visual_tip
  else if String.eqb learning_style "Hands-on" then content ++ hands_on_tip
  else content.

(** The three response shapes tried in turn; [None] when none matches. *)
Definition extract_content (response : llm_response) : result (option string) :=
  match response with
  | WithContent content => Ok (Some content)
  | WithGenerations generations =>
      match generations with
      | (text :: _) :: _ => Ok (Some text)
      | _ => Raise IndexError
      end
  | ResponseList items =>
      match items with
      | first :: _ => Ok first
      | [] => Raise IndexError
      end
  | OtherResponse => Ok None
  end.

(** [not content]: [None] and the empty string are falsy. *)
Definition falsy (content : option string) : bool :=
  match content with
  | None => true
  | Some s => String.eqb s ""
  end.

(** The string a truthy [content] is. *)
Definition text_of (content : option string) : string :=
  match content with
  | Some s => s
  | None => ""
  end.

(** [generate_tutoring_response] (lines 33-58): every exception of the body,
    the one it raises itself included, is re-raised with a prefix. *)
Definition generate_tutoring_response (cap : Capability)
  (subject level question learning_style background language : string) : M string :=
  mtry
    (let prompt := _create_tutoring_prompt subject level question learning_style
                     background language in
     llm <~ get_llm cap ;;
     response <~ call_llm cap prompt ;;
     content <~ lift (extract_content response) ;;
     if falsy content
     then mraise (ExceptionMsg "LLM returned no usable response content.")
     else mret (format_tutoring_response (text_of content) learning_style))
    (fun e => mraise (Exception_ "Failed to generate tutoring response: " e)).

(** ** Quiz generation *)

(** [_create_quiz_prompt] (lines 94-121). *)
Definition _create_quiz_prompt (subject level : string) (num_questions : Z) : string :=
  String.concat nl
    [ "";
      "You are a quiz generator.";
      "";
      "Generate a quiz on the subject **" ++ subject ++ "** at **" ++ level ++ "** level.";
      "";
      "Instructions:";
      "1. Generate **" ++ str_of_int num_questions ++ "** multiple-choice questions (MCQs).";
      "2. Each question must have exactly 4 answer options (A, B, C, D).";
      "3. Clearly indicate the correct answer.";
      "4. Cover diverse aspects of " ++ subject ++ ".";
      "";
      "FORMAT YOUR RESPONSE AS JSON:";
      "[";
      "    {";
      "        " ++ dq ++ "question" ++ dq ++ ": " ++ dq ++ "Question text" ++ dq ++ ",";
      "        " ++ dq ++ "options" ++ dq ++ ": [" ++ dq ++ "Option A" ++ dq ++ ", " ++ dq ++ "Option B" ++ dq ++ ", " ++ dq ++ "Option C" ++ dq ++ ", " ++ dq ++ "Option D" ++ dq ++ "],";
      "        " ++ dq ++ "correct_answer" ++ dq ++ ": " ++ dq ++ "Option A" ++ dq ++ ",";
      "        " ++ dq ++ "explanation" ++ dq ++ ": " ++ dq ++ "Brief explanation of why this answer is correct" ++ dq;
      "    },";
      "    ...";
      "]";
      "";
      "IMPORTANT:";
      "- Make sure to return valid JSON that can be parsed.";
      "- Do not include any text outside the JSON array.";
      "- Include a brief explanation for each correct answer.";
      "" ].

(** The dict the comprehension of [_create_fallback_quiz] (lines 123-133)
    builds for the index [i]. *)
Definition fallback_question (subject : string) (i : nat) : pyval :=
  PDict
    [ ("question", PStr ("Sample " ++ subject ++ " question " ++ str_of_int (Z.of_nat i + 1)));
      ("options", PList [PStr "Option A"; PStr "Option B"; PStr "Option C"; PStr "Option D"]);
      ("correct_answer", PStr "Option A");
      ("explanation", PStr "This is a fallback explanation.") ].

(** [range(num_questions)] is empty when [num_questions] is not positive. *)
Definition _create_fallback_quiz (subject : string) (num_questions : Z) : pyval :=
  PList (map (fallback_question subject) (seq 0 (Z.to_nat num_questions))).

(** [all(key in question for key in keys)]: stops at the first key that is
    missing, and raises when [question] supports no [in]. *)
Fixpoint all_keys_in (keys : list string) (question : pyval) : result bool :=
  match keys with
  | [] => Ok true
  | key :: rest =>
      present <- py_in (PStr key) question ;;
      if present then all_keys_in rest question else Ok false
  end.

(** The body of the loop of [_validate_quiz_data]. *)
Definition validate_question (question : pyval) : result unit :=
  has_keys <- all_keys_in ["question"; "options"; "correct_answer"] question ;;
  if negb has_keys
  then Raise (ValueError "Each quiz item must have question, options, and correct_answer")
  else
    options <- py_getitem question "options" ;;
    wrong_size <- (if negb (isinstance_list options) then Ok true
                   else options' <- py_getitem question "options" ;;
                        n <- py_len options' ;;
                        Ok (negb (n =? 4))) ;;
    if (wrong_size : bool)
    then Raise (ValueError "Each question must have exactly 4 options")
    else
      answer <- py_getitem question "correct_answer" ;;
      options <- py_getitem question "options" ;;
      found <- py_in answer options ;;
      if negb found
      then Raise (ValueError "The correct answer must be one of the options")
      else Ok tt.

(** The loop of [_validate_quiz_data]: the first exception ends it. *)
Fixpoint validate_questions (questions : list pyval) : result unit :=
  match questions with
  | [] => Ok tt
  | question :: rest =>
      _ <- validate_question question ;;
      validate_questions rest
  end.

(** [_validate_quiz_data] (lines 135-142): returns [None] or raises. *)
Definition _validate_quiz_data (quiz_data : pyval) : result unit :=
  questions <- py_iter quiz_data ;;
  validate_questions questions.

(** The f-string of line 152. *)
Definition default_explanation (rt : PyRuntime) (correct_answer : pyval) : string :=
  "The correct answer is " ++ py_str rt correct_answer ++ ".".

(** The body of the second loop of [_parse_quiz_response]; the question is
    returned as the loop leaves it. *)
Definition backfill_question (rt : PyRuntime) (question : pyval) : result pyval :=
  present <- py_in (PStr "explanation") question ;;
  if negb present
  then
    answer <- py_getitem question "correct_answer" ;;
    py_setitem question "explanation" (PStr (default_explanation rt answer))
  else Ok question.

(** The second loop of [_parse_quiz_response]. *)
Fixpoint backfill_questions (rt : PyRuntime) (questions : list pyval)
  : result (list pyval) :=
  match questions with
  | [] => Ok []
  | question :: rest =>
      question' <- backfill_question rt question ;;
      rest' <- backfill_questions rt rest ;;
      Ok (question' :: rest')
  end.

(** The loop mutates the dicts the list holds, so a list comes back with
    its questions updated.  The characters of a string and the keys of a
    dict are immutable: if the loop gets through them, the value is
    unchanged. *)
Definition backfill (rt : PyRuntime) (quiz_data : pyval) : result pyval :=
  questions <- py_iter quiz_data ;;
  questions' <- backfill_questions rt questions ;;
  match quiz_data with
  | PList _ => Ok (PList questions')
  | _ => Ok quiz_data
  end.

(** The body of the [try] of [_parse_quiz_response]. *)
Definition parse_quiz_body (rt : PyRuntime) (response_content : string)
  (num_questions : Z) : result pyval :=
  quiz_data <- json_loads rt response_content ;;
  _ <- _validate_quiz_data quiz_data ;;
  len <- py_len quiz_data ;;
  quiz_data <- (if len >? num_questions
                then py_slice_to quiz_data num_questions
                else Ok quiz_data) ;;
  backfill rt quiz_data.

(** [_parse_quiz_response] (lines 144-156): a [ValueError] of the body, a
    [JSONDecodeError] included, is answered with the fallback quiz; any other
    exception propagates. *)
Definition _parse_quiz_response (rt : PyRuntime) (response_content subject : string)
  (num_questions : Z) : result pyval :=
  match parse_quiz_body rt response_content num_questions with
  | Ok quiz_data => Ok quiz_data
  | Raise e =>
      if is_ValueError e then Ok (_create_fallback_quiz subject num_questions)
      else Raise e
  end.

(** [response.content]. *)
Definition content_of (response : llm_response) : result string :=
  match response with
  | WithContent content => Ok content
  | _ => Raise (AttributeError "content")
  end.

(** [generate_quiz_data] (lines 158-162). *)
Definition generate_quiz_data (rt : PyRuntime) (cap : Capability)
  (subject level : string) (num_questions : Z) : M pyval :=
  let prompt := _create_quiz_prompt subject level num_questions in
  llm <~ get_llm cap ;;
  response <~ call_llm cap prompt ;;
  content <~ lift (content_of response) ;;
  lift (_parse_quiz_response rt content subject num_questions).

(** ** The quiz renderer *)

(** The literals of [_format_quiz_with_reveal] (lines 181-301): the head of
    the document, the three pieces of a question card, and the foot. *)
Definition html_head : string :=
  String.concat nl
    [ "";
      "    <html>";
      "    <head>";
      "        <style>";
      "            body {";
      "                font-family: 'Segoe UI', Tahoma, Geneva, Verdana, sans-serif;";
      "                background-color: #f2f4f8;";
      "                color: #333;";
      "                padding: 20px;";
      "            }";
      "";
      "            .quiz-card {";
      "                background-color: #fff;";
      "                border-radius: 12px;";
      "                box-shadow: 0 4px 10px rgba(0,0,0,0.1);";
      "                margin: 20px auto;";
      "                padding: 20px;";
      "                max-width: 700px;";
      "                transition: transform 0.3s;";
      "            }";
      "";
      "            .quiz-card:hover {";
      "                transform: scale(1.01);";
      "            }";
      "";
      "            .question {";
      "                font-size: 18px;";
      "                font-weight: bold;";
      "            }";
      "";
      "            .option {";
      "                padding: 10px 14px;";
      "                margin: 8px 0;";
      "                border-radius: 8px;";
      "                border: 1px solid #ccc;";
      "                cursor: pointer;";
      "                transition: background-color 0.3s, transform 0.2s;";
      "            }";
      "";
      "            .option:hover {";
      "                background-color: #f0f0f0;";
      "                transform: scale(1.02);";
      "            }";
      "";
      "            .selected-correct {";
      "                background-color: #c8f7c5;";
      "                border-color: #28a745;";
      "                font-weight: bold;";
      "            }";
      "";
      "            .selected-incorrect {";
      "                background-color: #f8d7da;";
      "                border-color: #dc3545;";
      "            }";
      "";
      "            .answer {";
      "                margin-top: 12px;";
      "                padding: 12px;";
      "                background-color: #e9ecef;";
      "                border-left: 5px solid #007bff;";
      "                display: none;";
      "                border-radius: 8px;";
      "            }";
      "        </style>";
      "        <script>";
      "            function handleAnswerSelection(isCorrect, selectedOption, questionNum) {";
      "                if (isCorrect) {";
      "                    selectedOption.className += ' selected-correct';";
      "                } else {";
      "                    selectedOption.className += ' selected-incorrect';";
      "                    revealAnswer(questionNum);";
      "                }";
      "            }";
      "";
      "            function revealAnswer(questionNum) {";
      "                const answerDiv = document.getElementById(" ++ dq ++ "answer-" ++ dq ++ " + questionNum);";
      "                answerDiv.style.display = 'block';";
      "                answerDiv.scrollIntoView({ behavior: 'smooth', block: 'nearest' });";
      "";
      "                answerDiv.animate([";
      "                    { transform: 'scale(1.05)', opacity: 1 },";
      "                    { transform: 'scale(1)', opacity: 1 }";
      "                ], {";
      "                    duration: 800,";
      "                    iterations: 1";
      "                });";
      "            }";
      "        </script>";
      "    </head>";
      "    <body>";
      "    <h2>🧠 Interactive Quiz</h2>";
      "    " ].

Definition html_card_open (number question_text : string) : string :=
  String.concat nl
    [ "";
      "        <div class='quiz-card'>";
      "            <div class='question'>Q" ++ number ++ ": " ++ question_text ++ "</div>";
      "            <div class='options'>";
      "        " ].

Definition html_option (is_correct number option : string) : string :=
  String.concat nl
    [ "";
      "                <div class='option' onclick=" ++ dq ++ "handleAnswerSelection(" ++ is_correct ++ ", this, " ++ number ++ ")" ++ dq ++ ">";
      "                    " ++ option;
      "                </div>";
      "            " ].

Definition html_card_close (number correct_answer explanation : string) : string :=
  String.concat nl
    [ "";
      "            </div>";
      "            <div class='answer' id='answer-" ++ number ++ "'>";
      "                <strong>✅ Correct Answer:</strong> " ++ correct_answer ++ "<br>";
      "                <em>💡 Explanation:</em> " ++ explanation;
      "            </div>";
      "        </div>";
      "        " ].

Definition html_foot : string :=
  String.concat nl
    [ "";
      "    </body>";
      "    </html>";
      "    " ].

(** [str(b).lower()]. *)
Definition lower_bool (b : bool) : string := if b then "true" else "false".

(** The inner loop, over the options of one question. *)
Fixpoint render_options (rt : PyRuntime) (question : pyval) (number : string)
  (options : list pyval) (html : string) : result string :=
  match options with
  | [] => Ok html
  | option :: rest =>
      answer <- py_getitem question "correct_answer" ;;
      let is_correct := lower_bool (py_eq option answer) in
      render_options rt question number rest
        (html ++ html_option is_correct number (py_str rt option))
  end.

(** The outer loop; [i] is the index [enumerate] gives the first question
    of [questions]. *)
Fixpoint render_questions (rt : PyRuntime) (i : nat) (questions : list pyval)
  (html : string) : result string :=
  match questions with
  | [] => Ok html
  | question :: rest =>
      let number := str_of_int (Z.of_nat i + 1) in
      question_text <- py_getitem question "question" ;;
      let html := html ++ html_card_open number (py_str rt question_text) in
      options <- py_getitem question "options" ;;
      options <- py_iter options ;;
      html <- render_options rt question number options html ;;
      answer <- py_getitem question "correct_answer" ;;
      explanation <- py_getitem question "explanation" ;;
      let html := html ++ html_card_close number (py_str rt answer)
                            (py_str rt explanation) in
      render_questions rt (S i) rest html
  end.

(** [_format_quiz_with_reveal] (lines 181-301). *)
Definition _format_quiz_with_reveal (rt : PyRuntime) (quiz_data : pyval)
  : result string :=
  questions <- py_iter quiz_data ;;
  html <- render_questions rt 0 questions html_head ;;
  Ok (html ++ html_foot).

(** ** The entry point *)

(** The dict [generate_quiz] returns: [formatted_quiz] is present when the
    markup was asked for. *)
Record quiz_result : Type := {
  quiz_data : pyval;
  formatted_quiz : option string
}.

(** [generate_quiz] (lines 164-179).  Both callers pass every argument, so
    the defaults of the last two are not modelled; [reveal_answer] stands
    for the truth value of the argument. *)
Definition generate_quiz (rt : PyRuntime) (cap : Capability)
  (subject level : string) (num_questions : Z) (reveal_answer : bool)
  : M quiz_result :=
  mtry
    (quiz_data <~ generate_quiz_data rt cap subject level num_questions ;;
     if reveal_answer
     then
       formatted_quiz <~ lift (_format_quiz_with_reveal rt quiz_data) ;;
       mret {| quiz_data := quiz_data; formatted_quiz := Some formatted_quiz |}
     else mret {| quiz_data := quiz_data; formatted_quiz := None |})
    (fun e => mraise (Exception_ "Failed to generate quiz: " e)).

(** ** The vocabulary of the specification *)

(** The questions of a quiz, in order. *)
Definition questions_of (quiz : pyval) : list pyval :=
  match py_iter quiz with
  | Ok questions => questions
  | Raise _ => []
  end.

(** The entry [key] of a question. *)
Definition field (question : pyval) (key : string) : option pyval :=
  match question with
  | PDict d => dict_get d key
  | _ => None
  end.

(** What the validation loop accepts: the three required entries, four
    options in a list, and the answer among them. *)
Definition checked_question (q : pyval) : Prop :=
  exists text options answer,
    field q "question" = Some text /\
    field q "options" = Some (PList options) /\
    List.length options = 4%nat /\
    field q "correct_answer" = Some answer /\
    existsb (fun o => same_or_eq o answer) options = true.

(** What the pipeline delivers: a checked question with an explanation. *)
Definition valid_question (q : pyval) : Prop :=
  checked_question q /\ exists explanation, field q "explanation" = Some explanation.

(** [isinstance(v, dict)]. *)
Definition is_dict (v : pyval) : bool :=
  match v with
  | PDict _ => true
  | _ => false
  end.

(** The question as the backfilling loop leaves it. *)
Definition with_explanation (rt : PyRuntime) (q : pyval) : pyval :=
  match q with
  | PDict d =>
      match dict_get d "explanation", dict_get d "correct_answer" with
      | None, Some answer =>
          PDict (dict_set d "explanation" (PStr (default_explanation rt answer)))
      | _, _ => q
      end
  | _ => q
  end.

(** The property of a delivered question, read to the letter: four options
    that are strings, a correct answer string-equal to one of them, and an
    explanation that is a non-empty string. *)
Definition specified_question (q : pyval) : Prop :=
  exists options answer explanation,
    field q "options" = Some (PList (map PStr options)) /\
    List.length options = 4%nat /\
    field q "correct_answer" = Some (PStr answer) /\
    In answer options /\
    field q "explanation" = Some (PStr explanation) /\
    explanation <> "".



(** ** Sample documents and services *)

(** An excerpt of [json.loads]: the documents of [table] decode to the
    values given, and any other text is taken not to be JSON.  No float,
    list or dict is printed in the examples, so [repr] is a placeholder. *)
Definition excerpt_runtime (table : list (string * pyval)) : PyRuntime :=
  {| json_loads := fun text =>
       match dict_get table text with
       | Some doc => Ok doc
       | None => Raise JSONDecodeError
       end;
     py_repr := fun _ => "<repr>" |}.

(** A model that answers every call with the message [text]. *)
Definition answering (text : string) : Capability :=
  {| ChatOpenAI := Ok tt; reply := fun _ _ => Ok (WithContent text) |}.

(** A model that fails its first call and answers the later ones with the
    message [text]. *)
Definition answering_later (text : string) : Capability :=
  {| ChatOpenAI := Ok tt;
     reply := fun k _ =>
       match k with
       | O => Raise (ServiceError "overloaded")
       | S _ => Ok (WithContent text)
       end |}.

Definition jstr (s : string) : string := dq ++ s ++ dq.

(** The two-question reply of the specification's example: the first
    question carries no explanation. *)
Definition algebra_text : string :=
  "[{" ++ jstr "question" ++ ":" ++ jstr "What is 2+2?" ++ ","
       ++ jstr "options" ++ ":[" ++ jstr "3" ++ "," ++ jstr "4" ++ ","
       ++ jstr "5" ++ "," ++ jstr "6" ++ "],"
       ++ jstr "correct_answer" ++ ":" ++ jstr "4" ++ "}, {"
       ++ jstr "question" ++ ":" ++ jstr "Solve x+1=2" ++ ","
       ++ jstr "options" ++ ":[" ++ jstr "0" ++ "," ++ jstr "1" ++ ","
       ++ jstr "2" ++ "," ++ jstr "3" ++ "],"
       ++ jstr "correct_answer" ++ ":" ++ jstr "1" ++ ","
       ++ jstr "explanation" ++ ":" ++ jstr "Subtract 1." ++ "}]".

Definition algebra_q1 : pyval :=
  PDict [ ("question", PStr "What is 2+2?");
          ("options", PList [PStr "3"; PStr "4"; PStr "5"; PStr "6"]);
          ("correct_answer", PStr "4") ].

Definition algebra_q2 : pyval :=
  PDict [ ("question", PStr "Solve x+1=2");
          ("options", PList [PStr "0"; PStr "1"; PStr "2"; PStr "3"]);
          ("correct_answer", PStr "1");
          ("explanation", PStr "Subtract 1.") ].

(** What the pipeline is to deliver for it: the first question with the
    default explanation, the second as it came. *)
Definition algebra_q1_backfilled : pyval :=
  PDict [ ("question", PStr "What is 2+2?");
          ("options", PList [PStr "3"; PStr "4"; PStr "5"; PStr "6"]);
          ("correct_answer", PStr "4");
          ("explanation", PStr "The correct answer is 4.") ].

Definition algebra_result : quiz_result :=
  {| quiz_data := PList [algebra_q1_backfilled; algebra_q2];
     formatted_quiz := None |}.

(** A reply whose only question has an empty explanation. *)
Definition blank_text : string :=
  "[{" ++ jstr "question" ++ ":" ++ jstr "Q" ++ ","
       ++ jstr "options" ++ ":[" ++ jstr "a" ++ "," ++ jstr "b" ++ ","
       ++ jstr "c" ++ "," ++ jstr "d" ++ "],"
       ++ jstr "correct_answer" ++ ":" ++ jstr "a" ++ ","
       ++ jstr "explanation" ++ ":" ++ jstr "" ++ "}]".

Definition blank_q : pyval :=
  PDict [ ("question", PStr "Q");
          ("options", PList [PStr "a"; PStr "b"; PStr "c"; PStr "d"]);
          ("correct_answer", PStr "a");
          ("explanation", PStr "") ].

(** A reply whose only question numbers its options instead of naming
    them. *)
Definition numbered_text : string :=
  "[{" ++ jstr "question" ++ ":" ++ jstr "Q" ++ ","
       ++ jstr "options" ++ ":[1,2,3,4],"
       ++ jstr "correct_answer" ++ ":1,"
       ++ jstr "explanation" ++ ":" ++ jstr "One." ++ "}]".

Definition numbered_q : pyval :=
  PDict [ ("question", PStr "Q");
          ("options", PList [PInt 1; PInt 2; PInt 3; PInt 4]);
          ("correct_answer", PInt 1);
          ("explanation", PStr "One.") ].

(** A reply whose only question repeats an option. *)
Definition repeated_text : string :=
  "[{" ++ jstr "question" ++ ":" ++ jstr "Q" ++ ","
       ++ jstr "options" ++ ":[" ++ jstr "a" ++ "," ++ jstr "a" ++ ","
       ++ jstr "b" ++ "," ++ jstr "c" ++ "],"
       ++ jstr "correct_answer" ++ ":" ++ jstr "a" ++ ","
       ++ jstr "explanation" ++ ":" ++ jstr "E" ++ "}]".

Definition repeated_q : pyval :=
  PDict [ ("question", PStr "Q");
          ("options", PList [PStr "a"; PStr "a"; PStr "b"; PStr "c"]);
          ("correct_answer", PStr "a");
          ("explanation", PStr "E") ].

(** A reply that is a JSON array, the first element of which is a number
    and the second a question with three options. *)
Definition mixed_text : string :=
  "[5, {" ++ jstr "question" ++ ":" ++ jstr "Q" ++ ","
         ++ jstr "options" ++ ":[" ++ jstr "a" ++ "," ++ jstr "b" ++ ","
         ++ jstr "c" ++ "],"
         ++ jstr "correct_answer" ++ ":" ++ jstr "a" ++ "}]".

Definition three_options_q : pyval :=
  PDict [ ("question", PStr "Q");
          ("options", PList [PStr "a"; PStr "b"; PStr "c"]);
          ("correct_answer", PStr "a") ].

Definition sample_runtime : PyRuntime :=
  excerpt_runtime
    [ (algebra_text, PList [algebra_q1; algebra_q2]);
      (blank_text, PList [blank_q]);
      (numbered_text, PList [numbered_q]);
      (repeated_text, PList [repeated_q]);
      (mixed_text, PList [PInt 5; three_options_q]);
      ("5", PInt 5);
      ("null", PNone) ].

(** ** Closed forms and further vocabulary *)

(** [None], a bool or a number: a value that supports neither [in] nor
    iteration. *)
Definition is_scalar (v : pyval) : bool :=
  match v with
  | PNone | PBool _ | PInt _ | PFloat _ => true
  | PStr _ | PList _ | PDict _ => false
  end.

(** The markup of the options of a question, one [div] per option in the
    order of the list, flagged with the outcome of [==] against the
    answer. *)
Definition options_markup (rt : PyRuntime) (number : string) (answer : pyval)
  (options : list pyval) : string :=
  fold_right
    (fun o rest =>
       html_option (lower_bool (py_eq o answer)) number (py_str rt o) ++ rest)
    "" options.

(** The card of the question at index [i]: its three pieces, with the
    number [i + 1].  A question that lacks an entry has no card. *)
Definition question_card (rt : PyRuntime) (i : nat) (q : pyval) : string :=
  match field q "question", field q "options", field q "correct_answer",
        field q "explanation" with
  | Some text, Some (PList options), Some answer, Some explanation =>
      let number := str_of_int (Z.of_nat i + 1) in
      html_card_open number (py_str rt text)
      ++ options_markup rt number answer options
      ++ html_card_close number (py_str rt answer) (py_str rt explanation)
  | _, _, _, _ => ""
  end.

(** The cards of the questions, the first of which has index [i]. *)
Fixpoint cards (rt : PyRuntime) (i : nat) (questions : list pyval) : string :=
  match questions with
  | [] => ""
  | q :: rest => question_card rt i q ++ cards rt (S i) rest
  end.

(** [part] occurs in [whole]. *)
Definition occurs_in (part whole : string) : Prop :=
  exists before after, whole = before ++ part ++ after.

(** ** The HTTP handlers of [backend/main.py]

    The framework decodes and validates the request before it calls a
    handler, and encodes what the handler returns; the handlers themselves
    are modelled, as functions of the decoded request.  A handler returns a
    body or raises [HTTPException]; [HTTPException status prefix cause] is
    [HTTPException(status_code=status, detail=f"{prefix}{str(cause)}")]. *)

(** [quiz_result["quiz_data"]] and [quiz_result["formatted_quiz"]]. *)
Definition getitem_quiz_data (r : quiz_result) : result pyval := Ok (quiz_data r).

Definition getitem_formatted_quiz (r : quiz_result) : result string :=
  match formatted_quiz r with
  | Some html => Ok html
  | None => Raise (KeyError "formatted_quiz")
  end.

Module Api.

Record TutorRequest : Type := {
  subject : string;
  level : string;
  question : string;
  learning_style : string;
  background : string;
  language : string
}.

(** [reveal_format] is [Optional[bool]]: it may be [None]. *)
Record QuizRequest : Type := {
  quiz_subject : string;
  quiz_level : string;
  num_questions : Z;
  reveal_format : option bool
}.

(** The dict a quiz handler returns: the key [formatted_quiz] is present
    when the markup was asked for. *)
Record QuizResponse : Type := {
  quiz : pyval;
  formatted_quiz : option string
}.

Inductive http_exception : Type :=
| HTTPException (status_code : Z) (prefix : string) (cause : exn).

Inductive outcome (A : Type) : Type :=
| Returns (body : A)
| Raises (e : http_exception).
Arguments Returns {A} body.
Arguments Raises {A} e.

Definition Handler (A : Type) : Type := list string -> outcome A * list string.

(** [try: body / except Exception as e: raise HTTPException(500, ...)]. *)
Definition guarded {A : Type} (prefix : string) (body : M A) : Handler A :=
  fun log =>
    match body log with
    | (Ok a, log') => (Returns a, log')
    | (Raise e, log') => (Raises (HTTPException 500 prefix e), log')
    end.

(** The truth value of an [Optional[bool]]. *)
Definition truthy (flag : option bool) : bool :=
  match flag with
  | Some true => true
  | _ => false
  end.

(** [get_tutoring_response] (lines 58-71); the body returned is the value
    of the key [response]. *)
Definition get_tutoring_response (cap : Capability) (data : TutorRequest)
  : Handler string :=
  guarded "Error generating explanation: "
    (explanation <~ generate_tutoring_response cap (subject data) (level data)
                      (question data) (learning_style data) (background data)
                      (language data) ;;
     mret explanation).

(** [generate_quiz_api] (lines 74-95). *)
Definition generate_quiz_api (rt : PyRuntime) (cap : Capability)
  (data : QuizRequest) : Handler QuizResponse :=
  guarded "Error generating quiz: "
    (quiz_result <~ generate_quiz rt cap (quiz_subject data) (quiz_level data)
                      (num_questions data) (truthy (reveal_format data)) ;;
     if truthy (reveal_format data)
     then
       quiz <~ lift (getitem_quiz_data quiz_result) ;;
       formatted <~ lift (getitem_formatted_quiz quiz_result) ;;
       mret {| quiz := quiz; formatted_quiz := Some formatted |}
     else
       quiz <~ lift (getitem_quiz_data quiz_result) ;;
       mret {| quiz := quiz; formatted_quiz := None |}).

(** [get_quiz_html] (lines 98-104): the count is a path parameter, an
    [int] with no bounds. *)
Definition get_quiz_html (rt : PyRuntime) (cap : Capability)
  (subject level : string) (num_questions : Z) : Handler string :=
  guarded "Error generating quiz HTML: "
    (quiz_result <~ generate_quiz rt cap subject level num_questions true ;;
     lift (getitem_formatted_quiz quiz_result)).

End Api.

(** ** Further samples *)

(** A model whose client cannot be built. *)
Definition unconfigured : Capability :=
  {| ChatOpenAI := Raise (ServiceError "no API key");
     reply := fun _ _ => Ok (WithContent "unused") |}.

(** A model that answers every call with the completion-style reply
    [generations]. *)
Definition completing (generations : list (list string)) : Capability :=
  {| ChatOpenAI := Ok tt; reply := fun _ _ => Ok (WithGenerations generations) |}.

(** A model that answers every call with the reply [response]. *)
Definition replying (response : llm_response) : Capability :=
  {| ChatOpenAI := Ok tt; reply := fun _ _ => Ok response |}.

(** A question whose text is markup. *)
Definition script_q : pyval :=
  PDict [ ("question", PStr "<script>alert(1)</script>");
          ("options", PList [PStr "a"; PStr "b"; PStr "c"; PStr "d"]);
          ("correct_answer", PStr "a");
          ("explanation", PStr "E") ].

(** A question with no entry [correct_answer]. *)
Definition unanswered_q : pyval :=
  PDict [ ("question", PStr "Q");
          ("options", PList [PStr "a"; PStr "b"; PStr "c"; PStr "d"]) ].

(** A question whose answer is none of its options. *)
Definition stray_answer_q : pyval :=
  PDict [ ("question", PStr "Q");
          ("options", PList [PStr "a"; PStr "b"; PStr "c"; PStr "d"]);
          ("correct_answer", PStr "e") ].

(** The JSON text of a sample document.  The samples hold no character
    that JSON escapes and no float but NaN, which Python's encoder writes,
    and its decoder reads, as the bare word [NaN]. *)
Fixpoint json_text (v : pyval) : string :=
  match v with
  | PNone => "null"
  | PBool true => "true"
  | PBool false => "false"
  | PInt n => str_of_int n
  | PFloat _ => "NaN"
  | PStr s => jstr s
  | PList items => "[" ++ String.concat ", " (map json_text items) ++ "]"
  | PDict entries =>
      "{" ++ String.concat ", "
               (map (fun kv : string * pyval => let (k, w) := kv in jstr k ++ ": " ++ json_text w)
                  entries)
          ++ "}"
  end.

(** The excerpt of [json.loads] that decodes the texts of [docs]. *)
Definition decoding (docs : list pyval) : PyRuntime :=
  excerpt_runtime (map (fun doc => (json_text doc, doc)) docs).

(** Further documents: the empty array, and arrays of the questions
    above. *)
Definition more_runtime : PyRuntime :=
  decoding
    [ PList [];
      PList [algebra_q1; algebra_q2];
      PList [algebra_q2; PInt 7; algebra_q1];
      PList [algebra_q2; three_options_q];
      PList [algebra_q2; unanswered_q];
      PList [algebra_q2; stray_answer_q];
      PList [algebra_q1_backfilled; algebra_q2];
      PList [script_q] ].

(** ** The syntax of JSON

    A recogniser of the grammar of RFC 8259 over the bytes of a text: white
    space, the three literals, numbers, strings with their escapes, arrays
    and objects.  Every function returns the text left after what it read,
    or [None].  The recursion on values is bounded by a fuel that
    [is_json] sets from the length of the text. *)

Definition quote_char : ascii := ascii_of_nat 34.
Definition backslash_char : ascii := ascii_of_nat 92.

Definition is_ws (c : ascii) : bool :=
  let n := nat_of_ascii c in
  (Nat.eqb n 32 || Nat.eqb n 9 || Nat.eqb n 10 || Nat.eqb n 13)%bool.

Fixpoint skip_ws (s : string) : string :=
  match s with
  | String c rest => if is_ws c then skip_ws rest else s
  | EmptyString => s
  end.

Definition is_digit (c : ascii) : bool :=
  let n := nat_of_ascii c in (Nat.leb 48 n && Nat.leb n 57)%bool.

Definition is_hex (c : ascii) : bool :=
  let n := nat_of_ascii c in
  (is_digit c || (Nat.leb 65 n && Nat.leb n 70) || (Nat.leb 97 n && Nat.leb n 102))%bool.

Fixpoint skip_digits (s : string) : string :=
  match s with
  | String c rest => if is_digit c then skip_digits rest else s
  | EmptyString => s
  end.

(** One digit or more. *)
Definition lex_digits (s : string) : option string :=
  match s with
  | String c rest => if is_digit c then Some (skip_digits rest) else None
  | EmptyString => None
  end.

(** [int]: a zero, or a digit from 1 to 9 and any digits. *)
Definition lex_int (s : string) : option string :=
  match s with
  | String c rest =>
      if Ascii.eqb c "0" then Some rest
      else if is_digit c then Some (skip_digits rest)
      else None
  | EmptyString => None
  end.

(** [frac], when there is a point. *)
Definition lex_frac (s : string) : option string :=
  match s with
  | String c rest => if Ascii.eqb c "." then lex_digits rest else Some s
  | EmptyString => Some s
  end.

(** [exp], when there is an [e]. *)
Definition lex_exp (s : string) : option string :=
  match s with
  | String c rest =>
      if (Ascii.eqb c "e" || Ascii.eqb c "E")%bool
      then match rest with
           | String sign rest' =>
               if (Ascii.eqb sign "+" || Ascii.eqb sign "-")%bool
               then lex_digits rest'
               else lex_digits rest
           | EmptyString => None
           end
      else Some s
  | EmptyString => Some s
  end.

Definition lex_number (s : string) : option string :=
  let unsigned :=
    match s with
    | String c rest => if Ascii.eqb c "-" then rest else s
    | EmptyString => s
    end in
  match lex_int unsigned with
  | Some rest =>
      match lex_frac rest with
      | Some rest' => lex_exp rest'
      | None => None
      end
  | None => None
  end.

(** The characters of a string and its closing quote, the opening one
    being read. *)
Fixpoint lex_string_body (s : string) : option string :=
  match s with
  | EmptyString => None
  | String c rest =>
      if Ascii.eqb c quote_char then Some rest
      else if Ascii.eqb c backslash_char
      then match rest with
           | String e rest' =>
               if (Ascii.eqb e quote_char || Ascii.eqb e backslash_char || Ascii.eqb e "/"
                   || Ascii.eqb e "b" || Ascii.eqb e "f" || Ascii.eqb e "n"
                   || Ascii.eqb e "r" || Ascii.eqb e "t")%bool
               then lex_string_body rest'
               else if Ascii.eqb e "u"
               then match rest' with
                    | String h1 (String h2 (String h3 (String h4 rest''))) =>
                        if (is_hex h1 && is_hex h2 && is_hex h3 && is_hex h4)%bool
                        then lex_string_body rest''
                        else None
                    | _ => None
                    end
               else None
           | EmptyString => None
           end
      else if Nat.ltb (nat_of_ascii c) 32 then None
      else lex_string_body rest
  end.

(** [lex_value] reads a value, white space before it included;
    [lex_elements] the elements of an array after the first bracket, and
    [lex_members] the members of an object after the first brace, each up
    to the closing one. *)
Fixpoint lex_value (fuel : nat) (s : string) : option string :=
  match fuel with
  | O => None
  | S fuel =>
      match skip_ws s with
      | EmptyString => None
      | String c rest =>
          if Ascii.eqb c "["
          then match skip_ws rest with
               | String c' rest' =>
                   if Ascii.eqb c' "]" then Some rest'
                   else lex_elements fuel rest
               | EmptyString => None
               end
          else if Ascii.eqb c "{"
          then match skip_ws rest with
               | String c' rest' =>
                   if Ascii.eqb c' "}" then Some rest'
                   else lex_members fuel rest
               | EmptyString => None
               end
          else if Ascii.eqb c quote_char then lex_string_body rest
          else if String.prefix "true" (String c rest)
          then Some (String.substring 4 (String.length rest - 3) (String c rest))
          else if String.prefix "null" (String c rest)
          then Some (String.substring 4 (String.length rest - 3) (String c rest))
          else if String.prefix "false" (String c rest)
          then Some (String.substring 5 (String.length rest - 4) (String c rest))
          else lex_number (String c rest)
      end
  end
with lex_elements (fuel : nat) (s : string) : option string :=
  match fuel with
  | O => None
  | S fuel =>
      match lex_value fuel s with
      | Some rest =>
          match skip_ws rest with
          | String c rest' =>
              if Ascii.eqb c "," then lex_elements fuel rest'
              else if Ascii.eqb c "]" then Some rest'
              else None
          | EmptyString => None
          end
      | None => None
      end
  end
with lex_members (fuel : nat) (s : string) : option string :=
  match fuel with
  | O => None
  | S fuel =>
      match skip_ws s with
      | String q rest =>
          if Ascii.eqb q quote_char
          then match lex_string_body rest with
               | Some rest1 =>
                   match skip_ws rest1 with
                   | String c rest2 =>
                       if Ascii.eqb c ":"
                       then match lex_value fuel rest2 with
                            | Some rest3 =>
                                match skip_ws rest3 with
                                | String c' rest4 =>
                                    if Ascii.eqb c' "," then lex_members fuel rest4
                                    else if Ascii.eqb c' "}" then Some rest4
                                    else None
                                | EmptyString => None
                                end
                            | None => None
                            end
                       else None
                   | EmptyString => None
                   end
               | None => None
               end
          else None
      | EmptyString => None
      end
  end.

(** The text is one JSON value, with white space around it at most. *)
Definition is_json (text : string) : bool :=
  match lex_value (2 * String.length text + 2) text with
  | Some rest => String.eqb (skip_ws rest) ""
  | None => false
  end.

(** ** Texts on which the decoder and the grammar part *)

(** A question whose first option and whose answer are NaN. *)
Definition nan_q : pyval :=
  PDict [ ("question", PStr "Q");
          ("options", PList [PFloat S754_nan; PInt 1; PInt 2; PInt 3]);
          ("correct_answer", PFloat S754_nan);
          ("explanation", PStr "E") ].

(** The reply with that question: its text has the bare word [NaN], which
    is no JSON and which Python's decoder reads as the float. *)
Definition nan_text : string := json_text (PList [nan_q]).

Fixpoint repeat_string (s : string) (k : nat) : string :=
  match k with
  | O => ""
  | S k => s ++ repeat_string s k
  end.

(** 1100 opening brackets and nothing else: no JSON, and deeper than the
    interpreter's default recursion limit of 1000. *)
Definition deep_text : string := repeat_string "[" 1100.

(** The excerpt of [json.loads] on these two texts and on a sentence of
    prose. *)
Definition lenient_runtime : PyRuntime :=
  {| json_loads := fun text =>
       if String.eqb text nan_text then Ok (PList [nan_q])
       else if String.eqb text deep_text then Raise RecursionError
       else Raise JSONDecodeError;
     py_repr := fun _ => "<repr>" |}.

(** A question with an entry the renderer does not read. *)
Definition annotated_q : pyval :=
  PDict [ ("difficulty", PInt 3);
          ("question", PStr "Q");
          ("explanation", PStr "");
          ("options", PList [PStr "a"; PStr "b"; PStr "c"; PStr "d"]);
          ("correct_answer", PStr "a") ].

(** Two questions have the same entries for the renderer when they agree
    on the four keys it reads. *)
Definition same_rendered_entries (q q' : pyval) : Prop :=
  field q "question" = field q' "question" /\
  field q "options" = field q' "options" /\
  field q "correct_answer" = field q' "correct_answer" /\
  field q "explanation" = field q' "explanation".

(** * Properties *)

(** ** The error monad *)

Lemma rbind_ok {A B : Type} (r : result A) (k : A -> result B) (b : B) :
  rbind r k = Ok b -> exists a, r = Ok a /\ k a = Ok b.
Proof.
  destruct r as [a | e]; simpl; intros H; [eauto | discriminate].
Qed.

(** Splits a hypothesis [x <- r ;; k = Ok b] into its two steps. *)
Ltac bind_inv H :=
  let a := fresh "a" in
  let Ha := fresh "Ha" in
  apply rbind_ok in H; destruct H as [a [Ha H]].

(** ** Dictionaries *)

Lemma dict_get_set_same (d : list (string * pyval)) (key : string) (v : pyval) :
  dict_get (dict_set d key v) key = Some v.
Proof.
  induction d as [| [k w] d IH]; simpl.
  - now rewrite String.eqb_refl.
  - destruct (String.eqb k key) eqn:E; simpl; rewrite E; auto.
Qed.

Lemma dict_get_set_other (d : list (string * pyval)) (key key' : string) (v : pyval) :
  key <> key' -> dict_get (dict_set d key v) key' = dict_get d key'.
Proof.
  intros Hne. induction d as [| [k w] d IH]; simpl.
  - destruct (String.eqb key key') eqn:E; [apply String.eqb_eq in E; contradiction | reflexivity].
  - destruct (String.eqb k key) eqn:E; simpl.
    + apply String.eqb_eq in E. subst k.
      destruct (String.eqb key key') eqn:E'; [apply String.eqb_eq in E'; contradiction | reflexivity].
    + destruct (String.eqb k key'); auto.
Qed.

(** ** Equality of strings among values *)

Lemma py_eq_str (s : string) (v : pyval) :
  py_eq v (PStr s) = true -> v = PStr s.
Proof.
  destruct v as [| b | n | f | t | l | d]; simpl; try discriminate.
  intros H. apply String.eqb_eq in H. now subst.
Qed.

Lemma same_or_eq_str (s : string) (v : pyval) :
  same_or_eq v (PStr s) = true -> v = PStr s.
Proof.
  unfold same_or_eq. simpl. rewrite andb_false_r, orb_false_r. apply py_eq_str.
Qed.

(** An answer that is a string and passes the membership test is one of
    the options, letter for letter. *)
Lemma string_answer_among (options : list pyval) (s : string) :
  existsb (fun o => same_or_eq o (PStr s)) options = true -> In (PStr s) options.
Proof.
  intros H. apply existsb_exists in H. destruct H as [o [Hin Heq]].
  apply same_or_eq_str in Heq. now subst.
Qed.

(** ** Validation *)

Lemma all_keys_in_dict (keys : list string) (d : list (string * pyval)) :
  all_keys_in keys (PDict d) = Ok (forallb (dict_has d) keys).
Proof.
  induction keys as [| key keys IH]; simpl; [reflexivity |].
  destruct (dict_has d key); simpl; auto.
Qed.

(** Only a dict gets through the body of the validation loop: on a string
    or a list the membership tests run, but indexing by a key raises. *)
Lemma validate_question_dict (q : pyval) :
  validate_question q = Ok tt -> exists d, q = PDict d.
Proof.
  destruct q as [| b | n | f | s | l | d]; try (simpl; discriminate); [| | eauto].
  - unfold validate_question. intros H. bind_inv H.
    destruct (negb a); [discriminate | simpl in H; discriminate].
  - unfold validate_question. intros H. bind_inv H.
    destruct (negb a); [discriminate | simpl in H; discriminate].
Qed.

Lemma validate_question_ok (q : pyval) :
  validate_question q = Ok tt -> checked_question q.
Proof.
  intros H. destruct (validate_question_dict q H) as [d ->].
  unfold validate_question in H. rewrite all_keys_in_dict in H. simpl in H.
  unfold dict_has in H.
  destruct (dict_get d "question") as [text |] eqn:Hq; simpl in H; [| discriminate].
  destruct (dict_get d "options") as [options |] eqn:Ho; simpl in H; [| discriminate].
  destruct (dict_get d "correct_answer") as [answer |] eqn:Ha; simpl in H; [| discriminate].
  destruct options as [| | | | | options |]; simpl in H; try discriminate.
  destruct (Z.of_nat (List.length options) =? 4) eqn:Hlen; simpl in H; [| discriminate].
  destruct (existsb (fun item => same_or_eq item answer) options) eqn:Hin;
    simpl in H; [| discriminate].
  exists text, options, answer. simpl. rewrite Hq, Ho, Ha.
  apply Z.eqb_eq in Hlen. repeat split; auto. lia.
Qed.

(** Conversely the body of the loop accepts every checked question. *)
Lemma validate_question_complete (q : pyval) :
  checked_question q -> validate_question q = Ok tt.
Proof.
  intros (text & options & answer & Hq & Ho & Hlen & Ha & Hin).
  destruct q as [| | | | | | d]; try discriminate. simpl in *.
  unfold validate_question. rewrite all_keys_in_dict. simpl. unfold dict_has.
  rewrite Hq, Ho, Ha. simpl. rewrite Hlen, Hin. reflexivity.
Qed.

Lemma validate_questions_ok (questions : list pyval) :
  validate_questions questions = Ok tt -> Forall checked_question questions.
Proof.
  induction questions as [| q rest IH]; simpl; intros H; [constructor |].
  bind_inv H. destruct a. constructor; auto using validate_question_ok.
Qed.

Lemma validate_questions_complete (questions : list pyval) :
  Forall checked_question questions -> validate_questions questions = Ok tt.
Proof.
  induction 1 as [| q rest Hq _ IH]; simpl; [reflexivity |].
  now rewrite (validate_question_complete q Hq).
Qed.

(** A dict that fails the check fails it with a [ValueError]. *)
Lemma validate_question_dict_error (d : list (string * pyval)) :
  validate_question (PDict d) = Ok tt \/
  exists msg, validate_question (PDict d) = Raise (ValueError msg).
Proof.
  unfold validate_question. rewrite all_keys_in_dict. simpl. unfold dict_has.
  destruct (dict_get d "question"); simpl; [| eauto].
  destruct (dict_get d "options") as [options |]; simpl; [| eauto].
  destruct (dict_get d "correct_answer") as [answer |]; simpl; [| eauto].
  destruct options as [| | | | | options |]; simpl; eauto.
  destruct (Z.of_nat (List.length options) =? 4); simpl; [| eauto].
  destruct (existsb (fun item => same_or_eq item answer) options); simpl; eauto.
Qed.

Lemma validate_questions_dicts (questions : list pyval) :
  forallb is_dict questions = true ->
  validate_questions questions = Ok tt \/
  exists msg, validate_questions questions = Raise (ValueError msg).
Proof.
  induction questions as [| q rest IH]; simpl; intros H; [auto |].
  apply andb_prop in H. destruct H as [Hq Hrest].
  destruct q as [| | | | | | d]; try discriminate.
  destruct (validate_question_dict_error d) as [-> | [msg ->]]; simpl; eauto.
Qed.

(** What passes validation is a list of checked questions, or an empty
    string or dict: the characters of a string and the keys of a dict are
    strings, which the loop never accepts. *)
Lemma validated_shape (quiz : pyval) :
  _validate_quiz_data quiz = Ok tt ->
  exists questions,
    py_iter quiz = Ok questions /\
    Forall checked_question questions /\
    (quiz = PList questions \/ (questions = [] /\ py_len quiz = Ok 0)).
Proof.
  unfold _validate_quiz_data. intros H. bind_inv H. rename a into questions.
  apply validate_questions_ok in H.
  exists questions. repeat split; auto.
  destruct quiz as [| | | | s | l | d]; simpl in Ha; try discriminate;
    injection Ha as <-.
  - right. destruct (utf8_chars s) as [| c chars] eqn:E; simpl in *.
    + now rewrite E.
    + inversion H as [| ? ? (? & ? & ? & Hq & _) _]. discriminate.
  - now left.
  - right. destruct d as [| [k v] d]; simpl in *; [auto |].
    inversion H as [| ? ? (? & ? & ? & Hq & _) _]. discriminate.
Qed.

Section Pipeline.

(** The interpreter is the same throughout. *)
Variable rt : PyRuntime.

(** ** Backfilling *)

Lemma backfill_question_checked (q : pyval) :
  checked_question q -> backfill_question rt q = Ok (with_explanation rt q).
Proof.
  intros (text & options & answer & _ & _ & _ & Ha & _).
  destruct q as [| | | | | | d]; try discriminate. simpl in Ha.
  unfold backfill_question. simpl. unfold dict_has.
  destruct (dict_get d "explanation"); simpl; [reflexivity |].
  now rewrite Ha.
Qed.

Lemma backfill_questions_checked (questions : list pyval) :
  Forall checked_question questions ->
  backfill_questions rt questions = Ok (map (with_explanation rt) questions).
Proof.
  induction 1 as [| q rest Hq _ IH]; simpl; [reflexivity |].
  now rewrite (backfill_question_checked q Hq), IH.
Qed.

Lemma with_explanation_valid (q : pyval) :
  checked_question q -> valid_question (with_explanation rt q).
Proof.
  intros (text & options & answer & Hq & Ho & Hlen & Ha & Hin).
  destruct q as [| | | | | | d]; try discriminate. simpl in *.
  destruct (dict_get d "explanation") as [e |] eqn:He.
  - split; [| exists e; exact He].
    exists text, options, answer. simpl. auto.
  - rewrite Ha. split.
    + exists text, options, answer. simpl.
      rewrite !dict_get_set_other by discriminate. auto.
    + eexists. simpl. apply dict_get_set_same.
Qed.


Lemma fallback_question_valid (subject : string) (i : nat) :
  valid_question (fallback_question subject i).
Proof.
  split.
  - eexists _, _, _. simpl. repeat split; reflexivity.
  - eexists. reflexivity.
Qed.

Lemma fallback_quiz_valid (subject : string) (n : Z) :
  Forall valid_question (questions_of (_create_fallback_quiz subject n)).
Proof.
  unfold _create_fallback_quiz, questions_of. simpl.
  apply Forall_forall. intros q Hq. apply in_map_iff in Hq.
  destruct Hq as [i [<- _]]. apply fallback_question_valid.
Qed.

(** ** Parsing *)

Lemma Forall_firstn {A : Type} (P : A -> Prop) (k : nat) (l : list A) :
  Forall P l -> Forall P (firstn k l).
Proof.
  intros H. revert k. induction H as [| x l Hx _ IH]; intros [| k]; simpl;
    constructor; auto.
Qed.

(** On a document that passes validation and a count that is not negative,
    the parser returns the first [num_questions] questions, each as the
    backfilling loop leaves it. *)
Lemma parse_validated (content subject : string) (n : Z)
  (quiz : pyval) :
  json_loads rt content = Ok quiz ->
  _validate_quiz_data quiz = Ok tt ->
  0 <= n ->
  exists out,
    _parse_quiz_response rt content subject n = Ok out /\
    py_iter out =
      Ok (map (with_explanation rt) (firstn (Z.to_nat n) (questions_of quiz))).
Proof.
  intros Hload Hval Hn.
  destruct (validated_shape quiz Hval) as (questions & Hiter & Hall & Hshape).
  unfold _parse_quiz_response, parse_quiz_body, questions_of.
  rewrite Hload. cbn [rbind]. rewrite Hval, Hiter. cbn [rbind].
  destruct Hshape as [-> | [-> Hlen]].
  - cbn [py_len rbind]. unfold slice_stop.
    destruct (Z.of_nat (List.length questions) >? n) eqn:Hgt; cbn [rbind py_slice_to].
    + unfold slice_stop. assert ((0 <=? n) = true) as -> by (apply Z.leb_le; lia).
      unfold backfill. cbn [py_iter rbind].
      rewrite backfill_questions_checked by (apply Forall_firstn; exact Hall).
      cbn [rbind]. eauto.
    + rewrite firstn_all2 by lia.
      unfold backfill. cbn [py_iter rbind].
      rewrite backfill_questions_checked by exact Hall.
      cbn [rbind]. eauto.
  - rewrite Hlen. cbn [rbind].
    assert ((0 >? n) = false) as -> by lia.
    unfold backfill. cbn [rbind]. rewrite Hiter. cbn [rbind backfill_questions]. rewrite firstn_nil. simpl.
    destruct quiz; simpl in *; try discriminate; eauto.
Qed.

(** Whatever the parser returns is iterable and holds valid questions
    only, no more than [num_questions] of them. *)
Lemma parse_delivers (content subject : string) (n : Z)
  (out : pyval) :
  _parse_quiz_response rt content subject n = Ok out ->
  exists questions,
    py_iter out = Ok questions /\
    Forall valid_question questions /\
    (0 <= n -> Z.of_nat (List.length questions) <= n).
Proof.
  unfold _parse_quiz_response.
  destruct (parse_quiz_body rt content n) as [body | e] eqn:Hbody.
  - intros H. injection H as <-.
    unfold parse_quiz_body in Hbody.
    bind_inv Hbody. rename a into quiz.
    bind_inv Hbody. destruct a.
    bind_inv Hbody. rename a into len.
    bind_inv Hbody. rename a into cut.
    destruct (validated_shape quiz Ha0) as (questions & Hiter & Hall & Hshape).
    destruct Hshape as [-> | [-> Hlen]].
    + simpl in Ha1. injection Ha1 as <-.
      assert (exists kept, cut = PList kept /\ Forall checked_question kept /\
                (0 <= n -> Z.of_nat (List.length kept) <= n))
        as (kept & -> & Hkept & Hbound).
      { destruct (Z.of_nat (List.length questions) >? n) eqn:Hgt.
        - simpl in Ha2. injection Ha2 as <-. eexists. split; [reflexivity |].
          split; [apply Forall_firstn; exact Hall |].
          intros Hn. unfold slice_stop.
          assert ((0 <=? n) = true) as -> by (apply Z.leb_le; lia).
          pose proof (firstn_le_length (Z.to_nat n) questions). lia.
        - injection Ha2 as <-. eexists. split; [reflexivity |].
          split; [exact Hall | lia]. }
      unfold backfill in Hbody. simpl in Hbody.
      rewrite backfill_questions_checked in Hbody by exact Hkept.
      simpl in Hbody. injection Hbody as <-.
      eexists. split; [reflexivity |]. split.
      * apply Forall_forall. intros q Hq. apply in_map_iff in Hq.
        destruct Hq as [q0 [<- Hq0]]. apply with_explanation_valid.
        rewrite Forall_forall in Hkept. auto.
      * now rewrite length_map.
    + rewrite Hlen in Ha1. injection Ha1 as <-.
      assert (py_iter cut = Ok []) as Hcut.
      { destruct (0 >? n) eqn:Hneg.
        - destruct quiz; simpl in *; try discriminate.
          + injection Ha2 as <-. injection Hiter as Hchars.
            apply map_eq_nil in Hchars. rewrite Hchars, firstn_nil. reflexivity.
          + injection Hiter as ->. injection Ha2 as <-. now rewrite firstn_nil.
        - injection Ha2 as <-. exact Hiter. }
      unfold backfill in Hbody. rewrite Hcut in Hbody. simpl in Hbody.
      assert (body = cut) as ->.
      { destruct cut; simpl in Hcut; try discriminate; congruence. }
      exists []. split; [exact Hcut |]. split; [constructor | simpl; lia].
  - destruct (is_ValueError e); [| discriminate].
    intros H. injection H as <-.
    exists (map (fallback_question subject) (seq 0 (Z.to_nat n))).
    split; [reflexivity |]. split; [apply fallback_quiz_valid |].
    rewrite length_map, length_seq. lia.
Qed.

(** A document that is not iterable makes the parser raise: the
    [TypeError] of the loop header is none of the exceptions it catches. *)
Lemma scalar_document_raises (content subject : string) (n : Z) (quiz : pyval) :
  json_loads rt content = Ok quiz ->
  py_iter quiz = Raise TypeError ->
  _parse_quiz_response rt content subject n = Raise TypeError.
Proof.
  intros Hload Hiter.
  unfold _parse_quiz_response, parse_quiz_body, _validate_quiz_data.
  now rewrite Hload; cbn [rbind]; rewrite Hiter.
Qed.

(** ** Rendering *)

Lemma render_options_total (q : pyval) (number : string)
  (answer : pyval) (options : list pyval) (html : string) :
  field q "correct_answer" = Some answer ->
  exists out, render_options rt q number options html = Ok out.
Proof.
  intros Ha. destruct q as [| | | | | | d]; try discriminate. simpl in Ha.
  revert html. induction options as [| o rest IH]; intros html; simpl.
  - eauto.
  - rewrite Ha. simpl. apply IH.
Qed.

(** The renderer raises on no quiz of valid questions. *)
Lemma render_questions_total (questions : list pyval) :
  Forall valid_question questions ->
  forall (i : nat) (html : string),
    exists out, render_questions rt i questions html = Ok out.
Proof.
  induction 1 as [| q rest Hq _ IH]; intros i html; simpl; [eauto |].
  destruct Hq as [(text & options & answer & Hq & Ho & _ & Ha & _) [e He]].
  destruct (render_options_total q (str_of_int (Z.of_nat i + 1)) answer options
              (html ++ html_card_open (str_of_int (Z.of_nat i + 1)) (py_str rt text))
              Ha) as [html' Hopts].
  destruct q as [| | | | | | d]; try discriminate. simpl in Hq, Ho, Ha, He.
  simpl. rewrite Hq, Ho. simpl. rewrite Hopts. simpl. rewrite Ha, He. simpl.
  apply IH.
Qed.

Lemma format_total (quiz : pyval) (questions : list pyval) :
  py_iter quiz = Ok questions ->
  Forall valid_question questions ->
  exists html, _format_quiz_with_reveal rt quiz = Ok html.
Proof.
  intros Hiter Hall. unfold _format_quiz_with_reveal. rewrite Hiter. simpl.
  destruct (render_questions_total questions Hall 0%nat html_head) as [html ->].
  simpl. eauto.
Qed.

End Pipeline.

(** ** The entry point *)

(** Unfolds the state monad in a statement about a run. *)
Ltac run_pipeline :=
  unfold generate_quiz, generate_quiz_data, mtry, mbind, get_llm, call_llm, lift,
    mret, mraise.

Section EntryPoint.

Variables (rt : PyRuntime) (cap : Capability) (subject level : string) (n : Z)
  (reveal : bool) (log : list string).

(** The way [generate_quiz] returns: the model was called once and
    answered with a message, the parser returned the quiz, and the markup,
    when asked for, is the renderer's output on that quiz. *)
Lemma generate_quiz_returns (log' : list string) (r : quiz_result) :
  generate_quiz rt cap subject level n reveal log = (Ok r, log') ->
  exists content,
    reply cap (List.length log) (_create_quiz_prompt subject level n)
      = Ok (WithContent content) /\
    _parse_quiz_response rt content subject n = Ok (quiz_data r) /\
    log' = (log ++ [_create_quiz_prompt subject level n])%list /\
    formatted_quiz r =
      (if reveal
       then match _format_quiz_with_reveal rt (quiz_data r) with
            | Ok html => Some html
            | Raise _ => None
            end
       else None).
Proof.
  run_pipeline.
  destruct (ChatOpenAI cap) as [[] | e]; [| discriminate].
  destruct (reply cap (List.length log) (_create_quiz_prompt subject level n))
    as [[content | | |] | e]; simpl; try discriminate.
  destruct (_parse_quiz_response rt content subject n) as [quiz | e] eqn:Hparse;
    [| discriminate].
  destruct reveal.
  - destruct (_format_quiz_with_reveal rt quiz) as [html | e] eqn:Hhtml;
      [| discriminate].
    intros H. injection H as <- <-. simpl. rewrite Hhtml. eauto.
  - intros H. injection H as <- <-. simpl. eauto.
Qed.

(** From here on the client can be built and the model answers the call
    with the message [content]. *)
Hypothesis Hllm : ChatOpenAI cap = Ok tt.
Variable content : string.
Hypothesis Hreply :
  reply cap (List.length log) (_create_quiz_prompt subject level n)
    = Ok (WithContent content).

(** The way to a return: a parser that returns. *)
Lemma generate_quiz_runs (quiz : pyval) :
  _parse_quiz_response rt content subject n = Ok quiz ->
  exists r,
    generate_quiz rt cap subject level n reveal log
      = (Ok r, (log ++ [_create_quiz_prompt subject level n])%list) /\
    quiz_data r = quiz.
Proof.
  intros Hparse.
  destruct (parse_delivers rt content subject n quiz Hparse)
    as (questions & Hiter & Hall & _).
  destruct (format_total rt quiz questions Hiter Hall) as [html Hhtml].
  run_pipeline.
  rewrite Hllm, Hreply. simpl. rewrite Hparse.
  destruct reveal; [rewrite Hhtml |]; eauto.
Qed.

(** An exception of the parser leaves [generate_quiz] wrapped. *)
Lemma generate_quiz_raises (e : exn) :
  _parse_quiz_response rt content subject n = Raise e ->
  generate_quiz rt cap subject level n reveal log
    = (Raise (Exception_ "Failed to generate quiz: " e),
       (log ++ [_create_quiz_prompt subject level n])%list).
Proof.
  intros Hparse.
  run_pipeline.
  rewrite Hllm, Hreply. simpl. now rewrite Hparse.
Qed.

(** A validated reply, end to end: one call to the model, and the
    questions delivered are the first [n] of the batch, backfilled. *)
Lemma generate_quiz_validated (quiz : pyval) :
  json_loads rt content = Ok quiz ->
  _validate_quiz_data quiz = Ok tt ->
  0 <= n ->
  exists r,
    generate_quiz rt cap subject level n reveal log
      = (Ok r, (log ++ [_create_quiz_prompt subject level n])%list) /\
    questions_of (quiz_data r)
      = map (with_explanation rt) (firstn (Z.to_nat n) (questions_of quiz)).
Proof.
  intros Hload Hval Hn.
  destruct (parse_validated rt content subject n quiz Hload Hval Hn)
    as (out & Hparse & Hiter).
  destruct (generate_quiz_runs out Hparse) as (r & Hrun & Hdata).
  exists r. split; [exact Hrun |].
  unfold questions_of at 1. now rewrite Hdata, Hiter.
Qed.

End EntryPoint.


(** ** The properties of the specification *)

Lemma firstn_incl {A : Type} (k : nat) (l : list A) (x : A) :
  In x (firstn k l) -> In x l.
Proof.
  revert k. induction l as [| a l IH]; intros [| k] H; simpl in *; try contradiction.
  destruct H as [-> | H]; [now left | right; eauto].
Qed.

(** What the body of the parser returns: questions of the decoded reply,
    each as the backfilling loop leaves it. *)
Lemma parse_body_shape (rt : PyRuntime) (content : string) (n : Z) (body : pyval) :
  parse_quiz_body rt content n = Ok body ->
  exists doc kept,
    json_loads rt content = Ok doc /\
    Forall checked_question kept /\
    (forall q, In q kept -> In q (questions_of doc)) /\
    py_iter body = Ok (map (with_explanation rt) kept).
Proof.
  intros Hbody. unfold parse_quiz_body in Hbody.
  bind_inv Hbody. rename a into quiz.
  bind_inv Hbody. destruct a.
  bind_inv Hbody. rename a into len.
  bind_inv Hbody. rename a into cut.
  destruct (validated_shape quiz Ha0) as (questions & Hiter & Hall & Hshape).
  exists quiz. unfold questions_of. rewrite Hiter.
  destruct Hshape as [-> | [-> Hlen]].
  - simpl in Ha1. injection Ha1 as <-.
    assert (exists kept, cut = PList kept /\ Forall checked_question kept /\
              (forall q, In q kept -> In q questions))
      as (kept & -> & Hkept & Hincl).
    { destruct (Z.of_nat (List.length questions) >? n).
      - simpl in Ha2. injection Ha2 as <-. eexists. split; [reflexivity |].
        split; [apply Forall_firstn; exact Hall |].
        intros q. apply firstn_incl.
      - injection Ha2 as <-. eexists. split; [reflexivity |]. auto. }
    unfold backfill in Hbody. simpl in Hbody.
    rewrite backfill_questions_checked in Hbody by exact Hkept.
    simpl in Hbody. injection Hbody as <-.
    exists kept. auto.
  - rewrite Hlen in Ha1. injection Ha1 as <-.
    assert (py_iter cut = Ok []) as Hcut.
    { destruct (0 >? n) eqn:Hneg.
      - destruct quiz; simpl in *; try discriminate.
        + injection Ha2 as <-. injection Hiter as Hchars.
          apply map_eq_nil in Hchars. rewrite Hchars, firstn_nil. reflexivity.
        + injection Hiter as ->. injection Ha2 as <-. now rewrite firstn_nil.
      - injection Ha2 as <-. exact Hiter. }
    unfold backfill in Hbody. rewrite Hcut in Hbody. simpl in Hbody.
    assert (body = cut) as ->.
    { destruct cut; simpl in Hcut; try discriminate; congruence. }
    exists []. repeat split; auto.
Qed.

(** Where the explanation of a delivered question comes from: it is a
    string that is not empty, or the question is one of the decoded reply,
    delivered as it came. *)
Lemma parse_explanations (rt : PyRuntime) (content subject : string) (n : Z)
  (out : pyval) (q : pyval) :
  _parse_quiz_response rt content subject n = Ok out ->
  In q (questions_of out) ->
  exists explanation,
    field q "explanation" = Some explanation /\
    ((exists e, explanation = PStr e /\ e <> "") \/
     (exists doc, json_loads rt content = Ok doc /\ In q (questions_of doc))).
Proof.
  unfold _parse_quiz_response.
  destruct (parse_quiz_body rt content n) as [body | e] eqn:Hbody.
  - intros H Hq. injection H as <-.
    destruct (parse_body_shape rt content n body Hbody)
      as (doc & kept & Hload & Hkept & Hincl & Hiter).
    unfold questions_of in Hq. rewrite Hiter in Hq.
    apply in_map_iff in Hq. destruct Hq as [q0 [<- Hq0]].
    rewrite Forall_forall in Hkept.
    destruct (Hkept q0 Hq0) as (text & options & answer & _ & _ & _ & Ha & _).
    destruct q0 as [| | | | | | d]; try discriminate. simpl in Ha. simpl.
    destruct (dict_get d "explanation") as [e |] eqn:He.
    + exists e. split; [exact He |]. right. exists doc. auto.
    + rewrite Ha. simpl. rewrite dict_get_set_same. eexists. split; [reflexivity |].
      left. eexists. split; [reflexivity |]. discriminate.
  - destruct (is_ValueError e); [| discriminate].
    intros H Hq. injection H as <-.
    unfold questions_of, _create_fallback_quiz in Hq. simpl in Hq.
    apply in_map_iff in Hq. destruct Hq as [i [<- _]].
    eexists. split; [reflexivity |]. left. eexists. split; [reflexivity |].
    discriminate.
Qed.

(** C1, as amended.  For a request with [1 <= num_questions <= 10],
    whenever [generate_quiz] returns, the quiz has at most [num_questions]
    questions, and every question has exactly four options, a correct
    answer that the membership test finds among them (so an answer that is
    a string is, letter for letter, one of the options) and an explanation.
    The explanation is a string that is not empty whenever the pipeline
    supplied it, by the fallback quiz or by backfilling; otherwise the
    question is one of the decoded reply, delivered as it came, and its
    explanation is the reply's own, which can be empty. *)
Theorem C1_returned_quiz_is_valid (rt : PyRuntime) (cap : Capability)
  (subject level : string) (n : Z) (reveal : bool) (log log' : list string)
  (r : quiz_result) :
  1 <= n <= 10 ->
  generate_quiz rt cap subject level n reveal log = (Ok r, log') ->
  Z.of_nat (List.length (questions_of (quiz_data r))) <= n /\
  forall q, In q (questions_of (quiz_data r)) ->
    exists options answer explanation,
      field q "options" = Some (PList options) /\
      List.length options = 4%nat /\
      field q "correct_answer" = Some answer /\
      existsb (fun o => same_or_eq o answer) options = true /\
      (forall s, answer = PStr s -> In (PStr s) options) /\
      field q "explanation" = Some explanation /\
      ((exists e, explanation = PStr e /\ e <> "") \/
       (exists content doc,
          reply cap (List.length log) (_create_quiz_prompt subject level n)
            = Ok (WithContent content) /\
          json_loads rt content = Ok doc /\
          In q (questions_of doc))).
Proof.
  intros Hn Hrun.
  destruct (generate_quiz_returns rt cap subject level n reveal log log' r Hrun)
    as (content & Hreply & Hparse & _ & _).
  destruct (parse_delivers rt content subject n (quiz_data r) Hparse)
    as (questions & Hiter & Hall & Hlen).
  split; [unfold questions_of; rewrite Hiter; apply Hlen; lia |].
  intros q Hq.
  destruct (parse_explanations rt content subject n (quiz_data r) q Hparse Hq)
    as (explanation & He & Hsource).
  unfold questions_of in Hq. rewrite Hiter in Hq. rewrite Forall_forall in Hall.
  destruct (Hall q Hq) as [(text & options & answer & _ & Ho & Hfour & Ha & Hin) _].
  exists options, answer, explanation. repeat split; auto.
  - intros s ->. now apply string_answer_among.
  - destruct Hsource as [Hne | (doc & Hload & Hdoc)]; [left; exact Hne |].
    right. exists content, doc. auto.
Qed.

(** C1 put to work on the two-question reply of the specification. *)
Lemma C1_returned_quiz_is_valid_witness :
  1 <= 2 <= 10 /\
  generate_quiz sample_runtime (answering algebra_text) "Algebra" "Beginner" 2
    false []
    = (Ok algebra_result, [_create_quiz_prompt "Algebra" "Beginner" 2]) /\
  Z.of_nat (List.length (questions_of (quiz_data algebra_result))) <= 2.
Proof.
  assert (1 <= 2 <= 10) as Hn by lia.
  assert (generate_quiz sample_runtime (answering algebra_text) "Algebra"
            "Beginner" 2 false []
          = (Ok algebra_result, [_create_quiz_prompt "Algebra" "Beginner" 2]))
    as Hrun by (vm_compute; reflexivity).
  split; [exact Hn |]. split; [exact Hrun |].
  exact (proj1 (C1_returned_quiz_is_valid _ _ _ _ _ _ _ _ _ Hn Hrun)).
Defined.

(** C1 as written fails: a reply whose explanation is the empty string, or
    whose options and answer are numbers, passes validation and is returned
    as it is. *)
Lemma C1_counterexample :
  fst (generate_quiz sample_runtime (answering blank_text) "Algebra" "Beginner" 1
         false [])
    = Ok {| quiz_data := PList [blank_q]; formatted_quiz := None |} /\
  ~ specified_question blank_q /\
  fst (generate_quiz sample_runtime (answering numbered_text) "Algebra" "Beginner" 1
         false [])
    = Ok {| quiz_data := PList [numbered_q]; formatted_quiz := None |} /\
  ~ specified_question numbered_q.
Proof.
  split; [vm_compute; reflexivity |]. split.
  - intros (options & answer & e & _ & _ & _ & _ & He & Hne).
    simpl in He. injection He as <-. now apply Hne.
  - split; [vm_compute; reflexivity |].
    intros (options & answer & e & _ & _ & Ha & _). simpl in Ha. discriminate.
Qed.

(** C2, as amended.  When the decoder raises [JSONDecodeError] on the text
    the model returns, [generate_quiz] returns, after its one call to the
    model, the fallback quiz: the
    template question numbered [1] to [num_questions], which depends on the
    subject and the count only, whatever the text was. *)
Theorem C2_invalid_json_gives_fallback (rt : PyRuntime) (cap : Capability)
  (subject level content : string) (n : Z) (reveal : bool) (log : list string) :
  ChatOpenAI cap = Ok tt ->
  reply cap (List.length log) (_create_quiz_prompt subject level n)
    = Ok (WithContent content) ->
  json_loads rt content = Raise JSONDecodeError ->
  0 <= n ->
  exists r,
    generate_quiz rt cap subject level n reveal log
      = (Ok r, (log ++ [_create_quiz_prompt subject level n])%list) /\
    quiz_data r = PList (map (fallback_question subject) (seq 0 (Z.to_nat n))) /\
    Z.of_nat (List.length (questions_of (quiz_data r))) = n.
Proof.
  intros Hllm Hreply Hload Hn.
  assert (_parse_quiz_response rt content subject n
          = Ok (_create_fallback_quiz subject n)) as Hparse.
  { unfold _parse_quiz_response, parse_quiz_body. now rewrite Hload. }
  destruct (generate_quiz_runs rt cap subject level n reveal log Hllm content
              Hreply _ Hparse) as (r & Hrun & Hdata).
  exists r. split; [exact Hrun |]. split; [exact Hdata |].
  rewrite Hdata. unfold questions_of. simpl.
  rewrite length_map, length_seq. lia.
Qed.

(** C2 at a reply that is plain prose, with the markup asked for. *)
Lemma C2_invalid_json_gives_fallback_witness :
  json_loads sample_runtime "Sorry, I cannot help." = Raise JSONDecodeError /\
  0 <= 3 /\
  exists r,
    generate_quiz sample_runtime (answering "Sorry, I cannot help.") "Algebra"
      "Beginner" 3 true []
      = (Ok r, [_create_quiz_prompt "Algebra" "Beginner" 3]) /\
    quiz_data r = PList (map (fallback_question "Algebra") (seq 0 3)) /\
    Z.of_nat (List.length (questions_of (quiz_data r))) = 3.
Proof.
  split; [reflexivity |]. split; [lia |].
  apply (C2_invalid_json_gives_fallback sample_runtime
           (answering "Sorry, I cannot help.") "Algebra" "Beginner"
           "Sorry, I cannot help." 3 true []);
    [reflexivity | reflexivity | reflexivity | lia].
Defined.

(** C2 as written fails, for the decoder does not raise [JSONDecodeError]
    on every text that is no JSON.  The reply with the bare word [NaN] is
    no JSON; the decoder reads it, and the question of the reply is
    returned, not the fallback quiz.  The text of 1100 opening brackets is
    no JSON; the decoder raises [RecursionError] on it, and [generate_quiz]
    raises. *)
Lemma C2_counterexample :
  is_json nan_text = false /\
  fst (generate_quiz lenient_runtime (answering nan_text) "Algebra" "Beginner" 1
         false [])
    = Ok {| quiz_data := PList [nan_q]; formatted_quiz := None |} /\
  PList [nan_q] <> _create_fallback_quiz "Algebra" 1 /\
  is_json deep_text = false /\
  fst (generate_quiz lenient_runtime (answering deep_text) "Algebra" "Beginner" 1
         false [])
    = Raise (Exception_ "Failed to generate quiz: " RecursionError).
Proof.
  split; [vm_compute; reflexivity |].
  split; [vm_compute; reflexivity |].
  split; [discriminate |].
  split; vm_compute; reflexivity.
Qed.

(** C3, the failing input.  The reply is a JSON array of a number and a
    question with three options.  The membership test on the number raises
    [TypeError], which the parser does not catch: no fallback quiz is
    substituted, and [generate_quiz] raises. *)
Theorem C3_non_object_element_raises :
  json_loads sample_runtime mixed_text = Ok (PList [PInt 5; three_options_q]) /\
  _validate_quiz_data (PList [PInt 5; three_options_q]) = Raise TypeError /\
  generate_quiz sample_runtime (answering mixed_text) "Algebra" "Beginner" 2 false []
    = (Raise (Exception_ "Failed to generate quiz: " TypeError),
       [_create_quiz_prompt "Algebra" "Beginner" 2]).
Proof.
  split; [reflexivity |]. split; [reflexivity |]. vm_compute. reflexivity.
Qed.

(** What does hold of the all-or-nothing policy: a batch of JSON objects
    one of which fails the check is replaced whole by the fallback quiz. *)
Lemma object_batch_falls_back (rt : PyRuntime) (content subject : string) (n : Z)
  (questions : list pyval) :
  json_loads rt content = Ok (PList questions) ->
  forallb is_dict questions = true ->
  ~ Forall checked_question questions ->
  _parse_quiz_response rt content subject n = Ok (_create_fallback_quiz subject n).
Proof.
  intros Hload Hdicts Hbad.
  unfold _parse_quiz_response, parse_quiz_body, _validate_quiz_data.
  rewrite Hload. simpl.
  destruct (validate_questions_dicts questions Hdicts) as [Hok | [msg Hmsg]].
  - elim Hbad. now apply validate_questions_ok.
  - now rewrite Hmsg.
Qed.

(** C4, the failing inputs.  The replies [5] and [null] are JSON and fail
    the schema, being no array of questions; iterating over them raises
    [TypeError], which the parser lets through, and [generate_quiz] raises
    instead of returning the fallback quiz. *)
Theorem C4_scalar_document_raises :
  json_loads sample_runtime "5" = Ok (PInt 5) /\
  generate_quiz sample_runtime (answering "5") "Algebra" "Beginner" 2 false []
    = (Raise (Exception_ "Failed to generate quiz: " TypeError),
       [_create_quiz_prompt "Algebra" "Beginner" 2]) /\
  json_loads sample_runtime "null" = Ok PNone /\
  generate_quiz sample_runtime (answering "null") "Algebra" "Beginner" 2 false []
    = (Raise (Exception_ "Failed to generate quiz: " TypeError),
       [_create_quiz_prompt "Algebra" "Beginner" 2]).
Proof.
  repeat split; vm_compute; reflexivity.
Qed.

(** The recovery that does hold: whenever parsing or validation raises a
    [ValueError], the parser returns the fallback quiz. *)
Lemma value_errors_fall_back (rt : PyRuntime) (content subject : string) (n : Z)
  (e : exn) :
  parse_quiz_body rt content n = Raise e ->
  is_ValueError e = true ->
  _parse_quiz_response rt content subject n = Ok (_create_fallback_quiz subject n).
Proof.
  intros Hbody He. unfold _parse_quiz_response. now rewrite Hbody, He.
Qed.

(** C5.  On a reply that passes validation, with a count that is not
    negative: the model is called once; the questions delivered are the
    first [num_questions] of the batch, in the order of the batch, each as
    the backfilling step leaves it; so a longer batch is cut to exactly
    [num_questions], and a batch that is not longer is delivered whole,
    with nothing added. *)
Theorem C5_truncation_keeps_prefix (rt : PyRuntime) (cap : Capability)
  (subject level content : string) (n : Z) (reveal : bool) (log : list string)
  (quiz : pyval) :
  ChatOpenAI cap = Ok tt ->
  reply cap (List.length log) (_create_quiz_prompt subject level n)
    = Ok (WithContent content) ->
  json_loads rt content = Ok quiz ->
  _validate_quiz_data quiz = Ok tt ->
  0 <= n ->
  exists r,
    generate_quiz rt cap subject level n reveal log
      = (Ok r, (log ++ [_create_quiz_prompt subject level n])%list) /\
    questions_of (quiz_data r)
      = map (with_explanation rt) (firstn (Z.to_nat n) (questions_of quiz)) /\
    (n < Z.of_nat (List.length (questions_of quiz)) ->
     Z.of_nat (List.length (questions_of (quiz_data r))) = n) /\
    (Z.of_nat (List.length (questions_of quiz)) <= n ->
     questions_of (quiz_data r) = map (with_explanation rt) (questions_of quiz)).
Proof.
  intros Hllm Hreply Hload Hval Hn.
  destruct (generate_quiz_validated rt cap subject level n reveal log Hllm content
              Hreply quiz Hload Hval Hn) as (r & Hrun & Hqs).
  exists r. split; [exact Hrun |]. split; [exact Hqs |]. split.
  - intros Hlong. rewrite Hqs, length_map, length_firstn. lia.
  - intros Hshort. rewrite Hqs, firstn_all2 by lia. reflexivity.
Qed.

(** C5 on the two-question reply with one question asked for. *)
Lemma C5_truncation_keeps_prefix_witness :
  json_loads sample_runtime algebra_text = Ok (PList [algebra_q1; algebra_q2]) /\
  _validate_quiz_data (PList [algebra_q1; algebra_q2]) = Ok tt /\
  0 <= 1 /\
  exists r,
    generate_quiz sample_runtime (answering algebra_text) "Algebra" "Beginner" 1
      false []
      = (Ok r, [_create_quiz_prompt "Algebra" "Beginner" 1]) /\
    questions_of (quiz_data r) = [algebra_q1_backfilled].
Proof.
  split; [reflexivity |]. split; [reflexivity |]. split; [lia |].
  destruct (C5_truncation_keeps_prefix sample_runtime (answering algebra_text)
              "Algebra" "Beginner" algebra_text 1 false []
              (PList [algebra_q1; algebra_q2]))
    as (r & Hrun & Hqs & _); [reflexivity | reflexivity | reflexivity | reflexivity | lia |].
  exists r. split; [exact Hrun | exact Hqs].
Defined.




Lemma length_append (s t : string) :
  String.length (s ++ t) = (String.length s + String.length t)%nat.
Proof.
  induction s as [| c s IH]; simpl; [reflexivity | now rewrite IH].
Qed.

Lemma append_cancel_l (a b c : string) : a ++ b = a ++ c -> b = c.
Proof.
  induction a as [| x a IH]; simpl; intros H; [exact H |].
  injection H as H. auto.
Qed.

Lemma append_nil_r (a : string) : a ++ "" = a.
Proof.
  induction a as [| x a IH]; simpl; [reflexivity | now rewrite IH].
Qed.

Lemma append_grows (a b : string) : b <> "" -> a ++ b <> a.
Proof.
  intros Hb H. apply Hb, (append_cancel_l a). now rewrite append_nil_r.
Qed.

(** C7.  The post-processing of a tutoring text is a function of the text
    and the learning style alone.  For the style [Visual] it returns the
    text followed by two line feeds and the note on visualising, for
    [Hands-on] the text followed by two line feeds and the tip on working
    through the examples, for any other style the text as it is.  Each
    suffix is a constant that is not empty and is appended once: the result
    differs from the text, is longer by the length of the suffix, and is
    not the text with the suffix twice. *)
Theorem C7_format_is_suffix_by_style (text style : string) :
  format_tutoring_response text "Visual"
    = text ++ (nl ++ nl ++ "📝 *Note: Visualize these concepts as you read for better retention.*") /\
  format_tutoring_response text "Hands-on"
    = text ++ (nl ++ nl ++ "🛠️ *Tip: Try working through the examples yourself to reinforce your learning.*") /\
  format_tutoring_response text "Visual" = text ++ visual_tip /\
  format_tutoring_response text "Hands-on" = text ++ hands_on_tip /\
  String.length (format_tutoring_response text "Visual")
    = (String.length text + String.length visual_tip)%nat /\
  String.length (format_tutoring_response text "Hands-on")
    = (String.length text + String.length hands_on_tip)%nat /\
  (style <> "Visual" -> style <> "Hands-on" ->
   format_tutoring_response text style = text) /\
  visual_tip <> "" /\
  hands_on_tip <> "" /\
  format_tutoring_response text "Visual" <> text /\
  format_tutoring_response text "Hands-on" <> text /\
  format_tutoring_response text "Visual" <> text ++ visual_tip ++ visual_tip /\
  format_tutoring_response text "Hands-on" <> text ++ hands_on_tip ++ hands_on_tip.
Proof.
  assert (visual_tip <> "") as Hv by discriminate.
  assert (hands_on_tip <> "") as Hh by discriminate.
  assert (format_tutoring_response text "Visual" = text ++ visual_tip) as Ev
    by reflexivity.
  assert (format_tutoring_response text "Hands-on" = text ++ hands_on_tip) as Eh
    by reflexivity.
  rewrite Ev, Eh.
  split; [reflexivity |]. split; [reflexivity |].
  split; [reflexivity |]. split; [reflexivity |].
  split; [apply length_append |]. split; [apply length_append |].
  split.
  { intros Hsv Hsh. unfold format_tutoring_response.
    apply String.eqb_neq in Hsv. apply String.eqb_neq in Hsh.
    now rewrite Hsv, Hsh. }
  split; [exact Hv |]. split; [exact Hh |].
  split; [now apply append_grows |]. split; [now apply append_grows |].
  split.
  - intros H. apply append_cancel_l in H. symmetry in H.
    now apply (append_grows visual_tip visual_tip Hv).
  - intros H. apply append_cancel_l in H. symmetry in H.
    now apply (append_grows hands_on_tip hands_on_tip Hh).
Qed.




(** C10.  In the tutoring generator, a reply whose content is extracted as
    the empty string makes the generator raise, with the message that no
    usable content came back; and whenever the generator returns a text, a
    non-empty content was extracted from the reply to its one call, and the
    text returned is that content, post-processed, hence not empty. *)
Theorem C10_empty_content_raises (cap : Capability)
  (subject level question learning_style background language : string)
  (log : list string) :
  let prompt := _create_tutoring_prompt subject level question learning_style
                  background language in
  (forall response,
     ChatOpenAI cap = Ok tt ->
     reply cap (List.length log) prompt = Ok response ->
     extract_content response = Ok (Some "") ->
     generate_tutoring_response cap subject level question learning_style
       background language log
     = (Raise (Exception_ "Failed to generate tutoring response: "
                 (ExceptionMsg "LLM returned no usable response content.")),
        (log ++ [prompt])%list)) /\
  (forall text log',
     generate_tutoring_response cap subject level question learning_style
       background language log = (Ok text, log') ->
     exists response content,
       reply cap (List.length log) prompt = Ok response /\
       extract_content response = Ok (Some content) /\
       content <> "" /\
       text = format_tutoring_response content learning_style /\
       text <> "").
Proof.
  intros prompt. split.
  - intros response Hllm Hreply Hextract.
    unfold generate_tutoring_response, mtry, mbind, get_llm, call_llm, lift,
      mret, mraise.
    fold prompt. rewrite Hllm, Hreply, Hextract. reflexivity.
  - intros text log'.
    unfold generate_tutoring_response, mtry, mbind, get_llm, call_llm, lift,
      mret, mraise.
    fold prompt.
    destruct (ChatOpenAI cap) as [[] | e]; [| discriminate].
    destruct (reply cap (List.length log) prompt) as [response | e];
      [| discriminate].
    destruct (extract_content response) as [[content |] | e] eqn:Hextract;
      try discriminate.
    simpl. destruct (String.eqb content "") eqn:Hempty; [discriminate |].
    intros H. injection H as <- _.
    apply String.eqb_neq in Hempty.
    exists response, content. repeat split; auto.
    unfold format_tutoring_response.
    destruct content as [| c content]; [contradiction |].
    destruct (String.eqb learning_style "Visual");
      [| destruct (String.eqb learning_style "Hands-on")]; discriminate.
Qed.

(** C10 on a model that answers with an empty message, and on one that
    answers [F = ma]. *)
Lemma C10_empty_content_raises_witness :
  generate_tutoring_response (answering "") "Physics" "Beginner"
    "Explain Newton's Second Law of Motion." "Visual" "Beginner" "English" []
  = (Raise (Exception_ "Failed to generate tutoring response: "
              (ExceptionMsg "LLM returned no usable response content.")),
     [_create_tutoring_prompt "Physics" "Beginner"
        "Explain Newton's Second Law of Motion." "Visual" "Beginner" "English"]) /\
  exists log',
    generate_tutoring_response (answering "F = ma") "Physics" "Beginner"
      "Explain Newton's Second Law of Motion." "Visual" "Beginner" "English" []
    = (Ok ("F = ma" ++ visual_tip), log') /\
    "F = ma" ++ visual_tip <> "".
Proof.
  split.
  - apply (proj1 (C10_empty_content_raises (answering "") "Physics" "Beginner"
                    "Explain Newton's Second Law of Motion." "Visual" "Beginner"
                    "English" []) (WithContent ""));
      reflexivity.
  - eexists.
    assert (generate_tutoring_response (answering "F = ma") "Physics" "Beginner"
              "Explain Newton's Second Law of Motion." "Visual" "Beginner"
              "English" []
            = (Ok ("F = ma" ++ visual_tip),
               [_create_tutoring_prompt "Physics" "Beginner"
                  "Explain Newton's Second Law of Motion." "Visual" "Beginner"
                  "English"])) as Hrun by (vm_compute; reflexivity).
    split; [exact Hrun |].
    destruct (proj2 (C10_empty_content_raises _ _ _ _ _ _ _ _) _ _ Hrun)
      as (_ & _ & _ & _ & _ & _ & Hne).
    exact Hne.
Defined.

(** * Further properties of the code *)

(** ** Validation and parsing *)

Lemma validate_questions_app (before rest : list pyval) :
  Forall checked_question before ->
  validate_questions (before ++ rest) = validate_questions rest.
Proof.
  induction 1 as [| q before Hq _ IH]; simpl; [reflexivity |].
  now rewrite (validate_question_complete q Hq).
Qed.

Lemma validate_single (q : pyval) (e : exn) :
  _validate_quiz_data (PList [q]) = Raise e -> validate_question q = Raise e.
Proof.
  unfold _validate_quiz_data. simpl.
  destruct (validate_question q) as [[] | e']; simpl; congruence.
Qed.

Lemma with_explanation_fixed (rt : PyRuntime) (q : pyval) :
  valid_question q -> with_explanation rt q = q.
Proof.
  intros [_ [e He]]. destruct q as [| | | | | | d]; try reflexivity.
  simpl in *. now rewrite He.
Qed.

Lemma map_fixed {A : Type} (P : A -> Prop) (f : A -> A) (l : list A) :
  (forall a, P a -> f a = a) -> Forall P l -> map f l = l.
Proof.
  intros Hf. induction 1 as [| a l Ha _ IH]; simpl; [reflexivity |].
  now rewrite (Hf a Ha), IH.
Qed.

Lemma three_options_unchecked : ~ checked_question three_options_q.
Proof.
  intros (text & options & answer & _ & Ho & Hlen & _).
  simpl in Ho. injection Ho as <-. discriminate.
Qed.

(** X1.  The validator accepts a document exactly when the document can be
    iterated and every item is a dict with the three required entries, a
    list of four options and the answer among them. *)
Theorem X1_validation_accepts_exactly (quiz : pyval) :
  _validate_quiz_data quiz = Ok tt <->
  exists questions,
    py_iter quiz = Ok questions /\ Forall checked_question questions.
Proof.
  split.
  - intros H. destruct (validated_shape quiz H) as (questions & Hiter & Hall & _).
    eauto.
  - intros (questions & Hiter & Hall).
    unfold _validate_quiz_data. rewrite Hiter. simpl.
    now apply validate_questions_complete.
Qed.

(** X2.  The validator reports the first question it rejects: after
    questions that pass, a question rejected with an exception on its own
    makes the batch raise that exception, whatever follows it. *)
Theorem X2_validation_stops_at_first_failure (before after : list pyval)
  (q : pyval) (e : exn) :
  Forall checked_question before ->
  _validate_quiz_data (PList [q]) = Raise e ->
  _validate_quiz_data (PList (before ++ q :: after)) = Raise e.
Proof.
  intros Hbefore Hq. apply validate_single in Hq.
  unfold _validate_quiz_data. simpl.
  rewrite (validate_questions_app before (q :: after) Hbefore). simpl.
  now rewrite Hq.
Qed.

(** X2 on a batch whose second question has three options and whose third
    element is a number. *)
Lemma X2_validation_stops_at_first_failure_witness :
  Forall checked_question [algebra_q2] /\
  _validate_quiz_data (PList [three_options_q])
    = Raise (ValueError "Each question must have exactly 4 options") /\
  _validate_quiz_data (PList ([algebra_q2] ++ three_options_q :: [PInt 7]))
    = Raise (ValueError "Each question must have exactly 4 options").
Proof.
  assert (Forall checked_question [algebra_q2]) as Hbefore.
  { apply validate_questions_ok. reflexivity. }
  assert (_validate_quiz_data (PList [three_options_q])
          = Raise (ValueError "Each question must have exactly 4 options"))
    as Hq by reflexivity.
  split; [exact Hbefore |]. split; [exact Hq |].
  exact (X2_validation_stops_at_first_failure _ [PInt 7] _ _ Hbefore Hq).
Defined.

(** X3.  The message of the [ValueError] a dict is rejected with tells the
    first defect in the order of the checks: a required key that is missing,
    before options that are not a list of four, before an answer that is
    none of the options. *)
Theorem X3_validation_messages (d : list (string * pyval)) :
  (dict_get d "question" = None \/ dict_get d "options" = None \/
   dict_get d "correct_answer" = None ->
   _validate_quiz_data (PList [PDict d])
   = Raise (ValueError
              "Each quiz item must have question, options, and correct_answer")) /\
  (forall text options answer,
     dict_get d "question" = Some text ->
     dict_get d "options" = Some options ->
     dict_get d "correct_answer" = Some answer ->
     (forall items, options = PList items -> List.length items <> 4%nat) ->
     _validate_quiz_data (PList [PDict d])
     = Raise (ValueError "Each question must have exactly 4 options")) /\
  (forall text items answer,
     dict_get d "question" = Some text ->
     dict_get d "options" = Some (PList items) ->
     dict_get d "correct_answer" = Some answer ->
     List.length items = 4%nat ->
     existsb (fun o => same_or_eq o answer) items = false ->
     _validate_quiz_data (PList [PDict d])
     = Raise (ValueError "The correct answer must be one of the options")).
Proof.
  unfold _validate_quiz_data. simpl. unfold validate_question.
  rewrite all_keys_in_dict. simpl. unfold dict_has.
  repeat split.
  - intros [H | [H | H]]; rewrite H; simpl;
      repeat (match goal with
              | |- context [match dict_get d ?k with _ => _ end] =>
                  destruct (dict_get d k)
              end; simpl); reflexivity.
  - intros text options answer Hq Ho Ha Hsize. rewrite Hq, Ho, Ha. simpl.
    destruct options as [| | | | | items |]; simpl; try reflexivity.
    destruct (Z.of_nat (List.length items) =? 4) eqn:Hlen; simpl; [| reflexivity].
    apply Z.eqb_eq in Hlen. elim (Hsize items eq_refl). lia.
  - intros text items answer Hq Ho Ha Hlen Hin. rewrite Hq, Ho, Ha. simpl.
    rewrite Hlen. simpl. now rewrite Hin.
Qed.

(** X3 on three questions, one for each message. *)
Lemma X3_validation_messages_witness :
  _validate_quiz_data (PList [unanswered_q])
  = Raise (ValueError
             "Each quiz item must have question, options, and correct_answer") /\
  _validate_quiz_data (PList [three_options_q])
  = Raise (ValueError "Each question must have exactly 4 options") /\
  _validate_quiz_data (PList [stray_answer_q])
  = Raise (ValueError "The correct answer must be one of the options").
Proof.
  split; [| split].
  - apply (proj1 (X3_validation_messages _)). right. right. reflexivity.
  - apply (proj1 (proj2 (X3_validation_messages _))
             (PStr "Q") (PList [PStr "a"; PStr "b"; PStr "c"]) (PStr "a"));
      try reflexivity.
    intros items H. injection H as <-. discriminate.
  - apply (proj2 (proj2 (X3_validation_messages _))
             (PStr "Q") [PStr "a"; PStr "b"; PStr "c"; PStr "d"] (PStr "e"));
      reflexivity.
Defined.

(** X4.  A batch in which the first element that is not a valid question
    is [null], a bool or a number makes the parser raise [TypeError]: the
    fallback quiz is not substituted, whatever the count and the rest of
    the batch. *)
Theorem X4_scalar_element_escapes_fallback (rt : PyRuntime)
  (content subject : string) (n : Z) (before after : list pyval) (q : pyval) :
  json_loads rt content = Ok (PList (before ++ q :: after)) ->
  Forall checked_question before ->
  is_scalar q = true ->
  _parse_quiz_response rt content subject n = Raise TypeError.
Proof.
  intros Hload Hbefore Hq.
  unfold _parse_quiz_response, parse_quiz_body, _validate_quiz_data.
  rewrite Hload. simpl.
  rewrite (validate_questions_app before (q :: after) Hbefore).
  destruct q; try discriminate; reflexivity.
Qed.

(** X4 on a batch with a number between two valid questions. *)
Lemma X4_scalar_element_escapes_fallback_witness :
  json_loads more_runtime (json_text (PList [algebra_q2; PInt 7; algebra_q1]))
    = Ok (PList ([algebra_q2] ++ PInt 7 :: [algebra_q1])) /\
  _parse_quiz_response more_runtime
    (json_text (PList [algebra_q2; PInt 7; algebra_q1])) "Algebra" 2
    = Raise TypeError.
Proof.
  assert (json_loads more_runtime (json_text (PList [algebra_q2; PInt 7; algebra_q1]))
          = Ok (PList ([algebra_q2] ++ PInt 7 :: [algebra_q1])))
    as Hload by (vm_compute; reflexivity).
  split; [exact Hload |].
  apply (X4_scalar_element_escapes_fallback _ _ _ _ _ _ _ Hload);
    [apply validate_questions_ok; reflexivity | reflexivity].
Defined.

(** X5.  A reply that decodes to something empty passes validation and is
    returned as the quiz, for any count that is not negative: an empty array
    gives an empty quiz, not the fallback quiz, and an empty string or
    object is returned as it is, though it is no list. *)
Theorem X5_empty_reply_is_returned (rt : PyRuntime) (content subject : string)
  (n : Z) (quiz : pyval) :
  json_loads rt content = Ok quiz ->
  py_iter quiz = Ok [] ->
  0 <= n ->
  _parse_quiz_response rt content subject n = Ok quiz.
Proof.
  intros Hload Hiter Hn.
  assert (py_len quiz = Ok 0) as Hlen.
  { destruct quiz as [| | | | s | l | d]; simpl in *; try discriminate.
    - injection Hiter as H. apply map_eq_nil in H. now rewrite H.
    - injection Hiter as ->. reflexivity.
    - injection Hiter as H. apply map_eq_nil in H. now rewrite H. }
  unfold _parse_quiz_response, parse_quiz_body, _validate_quiz_data.
  rewrite Hload. cbn [rbind]. rewrite Hiter. cbn [rbind validate_questions].
  rewrite Hlen. cbn [rbind].
  assert ((0 >? n) = false) as -> by lia.
  unfold backfill. cbn [rbind]. rewrite Hiter. cbn [rbind backfill_questions].
  destruct quiz as [| | | | s | l | d]; simpl in *; try discriminate; try reflexivity.
  now injection Hiter as ->.
Qed.

(** X5 on the reply [[]] with three questions asked for. *)
Lemma X5_empty_reply_is_returned_witness :
  json_loads more_runtime "[]" = Ok (PList []) /\
  0 <= 3 /\
  _parse_quiz_response more_runtime "[]" "Algebra" 3 = Ok (PList []).
Proof.
  split; [reflexivity |]. split; [lia |].
  apply X5_empty_reply_is_returned; [reflexivity | reflexivity | lia].
Defined.

(** X6.  With a negative count, a valid batch is not emptied: the slice
    counts from the end, and the parser returns all the questions but the
    last [- num_questions], backfilled. *)
Theorem X6_negative_count_cuts_from_the_end (rt : PyRuntime)
  (content subject : string) (n : Z) (questions : list pyval) :
  json_loads rt content = Ok (PList questions) ->
  Forall checked_question questions ->
  n < 0 ->
  _parse_quiz_response rt content subject n
  = Ok (PList (map (with_explanation rt)
                 (firstn (List.length questions - Z.to_nat (- n)) questions))).
Proof.
  intros Hload Hall Hn.
  unfold _parse_quiz_response, parse_quiz_body, _validate_quiz_data.
  rewrite Hload. cbn [rbind py_iter].
  rewrite (validate_questions_complete questions Hall). cbn [rbind py_len].
  assert ((Z.of_nat (List.length questions) >? n) = true) as ->
    by (apply Z.gtb_lt; lia).
  cbn [py_slice_to rbind]. unfold slice_stop.
  assert ((0 <=? n) = false) as -> by (apply Z.leb_gt; lia).
  replace (Z.to_nat (Z.of_nat (List.length questions) + n))
    with (List.length questions - Z.to_nat (- n))%nat by lia.
  unfold backfill. cbn [py_iter rbind].
  rewrite backfill_questions_checked by (apply Forall_firstn; exact Hall).
  reflexivity.
Qed.

(** X6 on the two-question reply with the count [-1]. *)
Lemma X6_negative_count_cuts_from_the_end_witness :
  -1 < 0 /\
  _parse_quiz_response sample_runtime algebra_text "Algebra" (-1)
  = Ok (PList [algebra_q1_backfilled]).
Proof.
  split; [lia |].
  apply (X6_negative_count_cuts_from_the_end sample_runtime algebra_text "Algebra"
           (-1) [algebra_q1; algebra_q2]);
    [reflexivity | apply validate_questions_ok; reflexivity | lia].
Defined.

(** X7.  The fallback quiz passes the validator of the module, and has as
    many questions as the count says, none when the count is not
    positive. *)
Theorem X7_fallback_quiz_passes_validation (subject : string) (n : Z) :
  _validate_quiz_data (_create_fallback_quiz subject n) = Ok tt /\
  Z.of_nat (List.length (questions_of (_create_fallback_quiz subject n)))
    = Z.max 0 n.
Proof.
  split.
  - unfold _validate_quiz_data, _create_fallback_quiz. simpl.
    apply validate_questions_complete. apply Forall_forall.
    intros q Hq. apply in_map_iff in Hq. destruct Hq as [i [<- _]].
    exact (proj1 (fallback_question_valid subject i)).
  - unfold questions_of. simpl. rewrite length_map, length_seq. lia.
Qed.

Lemma py_len_of_iter (v : pyval) (items : list pyval) :
  py_iter v = Ok items -> py_len v = Ok (Z.of_nat (List.length items)).
Proof.
  destruct v; simpl; try discriminate; intros H; injection H as <-;
    now rewrite ?length_map.
Qed.

(** X8.  The parser leaves its own output alone: a reply that decodes to
    what the parser returned for the same count (not negative) is returned
    unchanged, nothing cut and nothing backfilled. *)
Theorem X8_parser_output_is_a_fixed_point (rt : PyRuntime)
  (content content' subject : string) (n : Z) (out : pyval) :
  0 <= n ->
  _parse_quiz_response rt content subject n = Ok out ->
  json_loads rt content' = Ok out ->
  _parse_quiz_response rt content' subject n = Ok out.
Proof.
  intros Hn Hparse Hload.
  destruct (parse_delivers rt content subject n out Hparse)
    as (questions & Hiter & Hall & Hlen).
  assert (Forall checked_question questions) as Hchecked.
  { apply Forall_forall. intros q Hq. rewrite Forall_forall in Hall.
    exact (proj1 (Hall q Hq)). }
  unfold _parse_quiz_response, parse_quiz_body, _validate_quiz_data.
  rewrite Hload. cbn [rbind]. rewrite Hiter. cbn [rbind].
  rewrite (validate_questions_complete questions Hchecked). cbn [rbind].
  rewrite (py_len_of_iter out questions Hiter). cbn [rbind].
  assert ((Z.of_nat (List.length questions) >? n) = false) as ->
    by (specialize (Hlen Hn); lia).
  unfold backfill. cbn [rbind]. rewrite Hiter. cbn [rbind].
  rewrite (backfill_questions_checked rt questions Hchecked). cbn [rbind].
  rewrite (map_fixed valid_question (with_explanation rt) questions
             (with_explanation_fixed rt) Hall).
  destruct out; simpl in Hiter; try discriminate; try reflexivity.
  now injection Hiter as ->.
Qed.

(** X8 on the example of the specification: what the parser returned for
    the two-question reply comes back from the parser as it is. *)
Lemma X8_parser_output_is_a_fixed_point_witness :
  0 <= 2 /\
  _parse_quiz_response more_runtime (json_text (PList [algebra_q1; algebra_q2]))
    "Algebra" 2 = Ok (PList [algebra_q1_backfilled; algebra_q2]) /\
  json_loads more_runtime (json_text (PList [algebra_q1_backfilled; algebra_q2]))
    = Ok (PList [algebra_q1_backfilled; algebra_q2]) /\
  _parse_quiz_response more_runtime
    (json_text (PList [algebra_q1_backfilled; algebra_q2])) "Algebra" 2
    = Ok (PList [algebra_q1_backfilled; algebra_q2]).
Proof.
  assert (0 <= 2) as Hn by lia.
  assert (_parse_quiz_response more_runtime
            (json_text (PList [algebra_q1; algebra_q2])) "Algebra" 2
          = Ok (PList [algebra_q1_backfilled; algebra_q2]))
    as Hparse by (vm_compute; reflexivity).
  assert (json_loads more_runtime
            (json_text (PList [algebra_q1_backfilled; algebra_q2]))
          = Ok (PList [algebra_q1_backfilled; algebra_q2]))
    as Hload by (vm_compute; reflexivity).
  split; [exact Hn |]. split; [exact Hparse |]. split; [exact Hload |].
  exact (X8_parser_output_is_a_fixed_point _ _ _ _ _ _ Hn Hparse Hload).
Defined.

(** X9.  A batch of JSON objects is kept or dropped as a whole: when one
    of the objects fails a check, [generate_quiz] returns the fallback quiz,
    even when the questions before the faulty one would have filled the
    request. *)
Theorem X9_object_batch_is_all_or_nothing (rt : PyRuntime) (cap : Capability)
  (subject level content : string) (n : Z) (reveal : bool) (log : list string)
  (questions : list pyval) :
  ChatOpenAI cap = Ok tt ->
  reply cap (List.length log) (_create_quiz_prompt subject level n)
    = Ok (WithContent content) ->
  json_loads rt content = Ok (PList questions) ->
  forallb is_dict questions = true ->
  ~ Forall checked_question questions ->
  exists r,
    generate_quiz rt cap subject level n reveal log
      = (Ok r, (log ++ [_create_quiz_prompt subject level n])%list) /\
    quiz_data r = _create_fallback_quiz subject n.
Proof.
  intros Hllm Hreply Hload Hdicts Hbad.
  apply (generate_quiz_runs rt cap subject level n reveal log Hllm content Hreply).
  now apply object_batch_falls_back with (questions := questions).
Qed.

(** X9 on a valid question followed by one with three options, one
    question asked for. *)
Lemma X9_object_batch_is_all_or_nothing_witness :
  json_loads more_runtime (json_text (PList [algebra_q2; three_options_q]))
    = Ok (PList [algebra_q2; three_options_q]) /\
  ~ Forall checked_question [algebra_q2; three_options_q] /\
  exists r,
    generate_quiz more_runtime
      (answering (json_text (PList [algebra_q2; three_options_q])))
      "Algebra" "Beginner" 1 false []
      = (Ok r, [_create_quiz_prompt "Algebra" "Beginner" 1]) /\
    quiz_data r = PList [fallback_question "Algebra" 0].
Proof.
  assert (json_loads more_runtime (json_text (PList [algebra_q2; three_options_q]))
          = Ok (PList [algebra_q2; three_options_q]))
    as Hload by (vm_compute; reflexivity).
  assert (~ Forall checked_question [algebra_q2; three_options_q]) as Hbad.
  { intros H. inversion H as [| ? ? _ H']. inversion H' as [| ? ? Hq _].
    exact (three_options_unchecked Hq). }
  split; [exact Hload |]. split; [exact Hbad |].
  apply (X9_object_batch_is_all_or_nothing more_runtime
           (answering (json_text (PList [algebra_q2; three_options_q])))
           "Algebra" "Beginner" _ 1 false [] _ eq_refl eq_refl Hload eq_refl Hbad).
Defined.

(** ** The calls to the model *)

(** X10.  A call to the model that raises is not recovered: [generate_quiz]
    raises the exception of the call behind its prefix, with no second call
    and no fallback quiz. *)
Theorem X10_model_failure_propagates (rt : PyRuntime) (cap : Capability)
  (subject level : string) (n : Z) (reveal : bool) (log : list string) (e : exn) :
  ChatOpenAI cap = Ok tt ->
  reply cap (List.length log) (_create_quiz_prompt subject level n) = Raise e ->
  generate_quiz rt cap subject level n reveal log
  = (Raise (Exception_ "Failed to generate quiz: " e),
     (log ++ [_create_quiz_prompt subject level n])%list).
Proof.
  intros Hllm Hreply. run_pipeline. now rewrite Hllm, Hreply.
Qed.

(** X10 on a model that fails its first call. *)
Lemma X10_model_failure_propagates_witness :
  generate_quiz sample_runtime (answering_later algebra_text) "Algebra" "Beginner" 2
    true []
  = (Raise (Exception_ "Failed to generate quiz: " (ServiceError "overloaded")),
     [_create_quiz_prompt "Algebra" "Beginner" 2]).
Proof.
  apply (X10_model_failure_propagates sample_runtime (answering_later algebra_text)
           "Algebra" "Beginner" 2 true [] (ServiceError "overloaded"));
    reflexivity.
Defined.

(** X11.  When the client cannot be built, neither generator sends a
    prompt, and each raises the exception of the construction behind two
    prefixes, that of [get_llm] and its own. *)
Theorem X11_unbuilt_client_sends_nothing (rt : PyRuntime) (cap : Capability)
  (subject level question learning_style background language : string)
  (n : Z) (reveal : bool) (log : list string) (e : exn) :
  ChatOpenAI cap = Raise e ->
  generate_quiz rt cap subject level n reveal log
  = (Raise (Exception_ "Failed to generate quiz: "
              (Exception_ "Failed to initialize AI model: " e)), log) /\
  generate_tutoring_response cap subject level question learning_style background
    language log
  = (Raise (Exception_ "Failed to generate tutoring response: "
              (Exception_ "Failed to initialize AI model: " e)), log).
Proof.
  intros Hllm. split.
  - run_pipeline. now rewrite Hllm.
  - unfold generate_tutoring_response, mtry, mbind, get_llm, mraise.
    now rewrite Hllm.
Qed.

(** X11 on a process with no API key. *)
Lemma X11_unbuilt_client_sends_nothing_witness :
  snd (generate_quiz sample_runtime unconfigured "Algebra" "Beginner" 2 true
         ["an earlier prompt"])
  = ["an earlier prompt"] /\
  snd (generate_tutoring_response unconfigured "Algebra" "Beginner" "Why?" "Visual"
         "Beginner" "English" ["an earlier prompt"])
  = ["an earlier prompt"].
Proof.
  destruct (X11_unbuilt_client_sends_nothing sample_runtime unconfigured "Algebra"
              "Beginner" "Why?" "Visual" "Beginner" "English" 2 true
              ["an earlier prompt"] (ServiceError "no API key") eq_refl)
    as [Hquiz Htutor].
  rewrite Hquiz, Htutor. split; reflexivity.
Defined.

(** X12.  Each generator calls the model at most once, whatever happens:
    the log of prompts grows by the one prompt of the request when the
    client can be built, and is left as it was when it cannot. *)
Theorem X12_at_most_one_call (rt : PyRuntime) (cap : Capability)
  (subject level question learning_style background language : string)
  (n : Z) (reveal : bool) (log : list string) :
  (snd (generate_quiz rt cap subject level n reveal log)
   = match ChatOpenAI cap with
     | Ok _ => (log ++ [_create_quiz_prompt subject level n])%list
     | Raise _ => log
     end) /\
  (snd (generate_tutoring_response cap subject level question learning_style
          background language log)
   = match ChatOpenAI cap with
     | Ok _ => (log ++ [_create_tutoring_prompt subject level question
                          learning_style background language])%list
     | Raise _ => log
     end).
Proof.
  split.
  - run_pipeline.
    destruct (ChatOpenAI cap) as [[] | e]; [| reflexivity].
    destruct (reply cap (List.length log) (_create_quiz_prompt subject level n))
      as [[content | | |] | e]; simpl; try reflexivity.
    destruct (_parse_quiz_response rt content subject n) as [quiz | e];
      [| reflexivity].
    destruct reveal; [| reflexivity].
    destruct (_format_quiz_with_reveal rt quiz); reflexivity.
  - unfold generate_tutoring_response, mtry, mbind, get_llm, call_llm, lift,
      mret, mraise.
    destruct (ChatOpenAI cap) as [[] | e]; [| reflexivity].
    destruct (reply cap (List.length log) _) as [response | e]; [| reflexivity].
    destruct (extract_content response) as [content | e]; [| reflexivity].
    destruct (falsy content); reflexivity.
Qed.

Lemma wrapped_errors (rt : PyRuntime) (cap : Capability)
  (subject level question learning_style background language : string)
  (n : Z) (reveal : bool) (log log' : list string) (e : exn) :
  (generate_quiz rt cap subject level n reveal log = (Raise e, log') ->
   exists cause, e = Exception_ "Failed to generate quiz: " cause) /\
  (generate_tutoring_response cap subject level question learning_style background
     language log = (Raise e, log') ->
   exists cause, e = Exception_ "Failed to generate tutoring response: " cause).
Proof.
  split.
  - unfold generate_quiz, mtry.
    destruct (mbind _ _ log) as [[r | e'] log'']; intros H; [discriminate |].
    unfold mraise in H. injection H as <- _. eauto.
  - unfold generate_tutoring_response, mtry.
    destruct (mbind _ _ log) as [[r | e'] log'']; intros H; [discriminate |].
    unfold mraise in H. injection H as <- _. eauto.
Qed.

(** X13.  Neither generator lets an exception out as it is: whatever is
    raised is an [Exception] whose message is the prefix of the generator
    followed by the message of the cause. *)
Theorem X13_errors_carry_the_prefix (rt : PyRuntime) (cap : Capability)
  (subject level question learning_style background language : string)
  (n : Z) (reveal : bool) (log log' : list string) (e : exn) :
  (generate_quiz rt cap subject level n reveal log = (Raise e, log') ->
   exists cause, e = Exception_ "Failed to generate quiz: " cause) /\
  (generate_tutoring_response cap subject level question learning_style background
     language log = (Raise e, log') ->
   exists cause, e = Exception_ "Failed to generate tutoring response: " cause).
Proof.
  split.
  - unfold generate_quiz, mtry.
    destruct (mbind _ _ log) as [[r | e'] log'']; intros H; [discriminate |].
    unfold mraise in H. injection H as <- _. eauto.
  - unfold generate_tutoring_response, mtry.
    destruct (mbind _ _ log) as [[r | e'] log'']; intros H; [discriminate |].
    unfold mraise in H. injection H as <- _. eauto.
Qed.

(** X14.  The quiz path reads the reply of the model as a message only: a
    reply of any other shape, the completion-style and list replies that
    the tutoring path accepts included, makes [generate_quiz] raise an
    [AttributeError] behind its prefix, and no fallback quiz is returned. *)
Theorem X14_quiz_needs_a_message (rt : PyRuntime) (cap : Capability)
  (subject level : string) (n : Z) (reveal : bool) (log : list string)
  (response : llm_response) :
  ChatOpenAI cap = Ok tt ->
  reply cap (List.length log) (_create_quiz_prompt subject level n) = Ok response ->
  (forall content, response <> WithContent content) ->
  generate_quiz rt cap subject level n reveal log
  = (Raise (Exception_ "Failed to generate quiz: " (AttributeError "content")),
     (log ++ [_create_quiz_prompt subject level n])%list).
Proof.
  intros Hllm Hreply Hshape. run_pipeline. rewrite Hllm, Hreply.
  destruct response as [content | | |]; try reflexivity.
  now elim (Hshape content).
Qed.

(** X14 on a completion-style reply. *)
Lemma X14_quiz_needs_a_message_witness :
  generate_quiz sample_runtime (completing [[algebra_text]]) "Algebra" "Beginner" 2
    false []
  = (Raise (Exception_ "Failed to generate quiz: " (AttributeError "content")),
     [_create_quiz_prompt "Algebra" "Beginner" 2]).
Proof.
  apply (X14_quiz_needs_a_message sample_runtime (completing [[algebra_text]])
           "Algebra" "Beginner" 2 false [] (WithGenerations [[algebra_text]]));
    [reflexivity | reflexivity | discriminate].
Defined.

(** X15.  The tutoring generator returns whenever the reply carries a text
    that is not empty, in any of the three shapes it knows: the [content]
    of a message, the [text] of the first generation of the first list, or
    the [content] of the first item of a list.  It returns that text,
    post-processed for the learning style, after its one call. *)
Theorem X15_tutoring_returns_the_text (cap : Capability)
  (subject level question learning_style background language text : string)
  (log : list string) (response : llm_response) :
  ChatOpenAI cap = Ok tt ->
  reply cap (List.length log)
    (_create_tutoring_prompt subject level question learning_style background
       language) = Ok response ->
  (response = WithContent text \/
   (exists rest others, response = WithGenerations ((text :: rest) :: others)) \/
   (exists items, response = ResponseList (Some text :: items))) ->
  text <> "" ->
  generate_tutoring_response cap subject level question learning_style background
    language log
  = (Ok (format_tutoring_response text learning_style),
     (log ++ [_create_tutoring_prompt subject level question learning_style
                background language])%list).
Proof.
  intros Hllm Hreply Hshape Htext.
  apply String.eqb_neq in Htext.
  unfold generate_tutoring_response, mtry, mbind, get_llm, call_llm, lift,
    mret, mraise.
  rewrite Hllm, Hreply.
  destruct Hshape as [-> | [(rest & others & ->) | (items & ->)]];
    simpl; now rewrite Htext.
Qed.

(** X15 on a completion-style reply and the style [Hands-on]. *)
Lemma X15_tutoring_returns_the_text_witness :
  "F = ma" <> "" /\
  generate_tutoring_response (completing [["F = ma"; "unused"]; []]) "Physics"
    "Beginner" "Explain Newton's Second Law of Motion." "Hands-on" "Beginner"
    "English" []
  = (Ok ("F = ma" ++ hands_on_tip),
     [_create_tutoring_prompt "Physics" "Beginner"
        "Explain Newton's Second Law of Motion." "Hands-on" "Beginner"
        "English"]).
Proof.
  assert ("F = ma" <> "") as Htext by discriminate.
  split; [exact Htext |].
  apply (X15_tutoring_returns_the_text (completing [["F = ma"; "unused"]; []])
           "Physics" "Beginner" "Explain Newton's Second Law of Motion."
           "Hands-on" "Beginner" "English" "F = ma" []
           (WithGenerations [["F = ma"; "unused"]; []]) eq_refl eq_refl);
    [right; left; eauto | exact Htext].
Defined.

(** X16.  The replies the tutoring generator cannot use.  A reply of no
    known shape, or a list whose first item has no [content], raises the
    complaint that no usable content came back; a reply with no generation
    to index, or an empty list, raises the [IndexError] of the indexing.
    Both leave behind the prefix of the generator, after the one call. *)
Theorem X16_tutoring_unusable_replies (cap : Capability)
  (subject level question learning_style background language : string)
  (log : list string) (response : llm_response) :
  ChatOpenAI cap = Ok tt ->
  reply cap (List.length log)
    (_create_tutoring_prompt subject level question learning_style background
       language) = Ok response ->
  ((response = OtherResponse \/
    exists items, response = ResponseList (None :: items)) ->
   fst (generate_tutoring_response cap subject level question learning_style
          background language log)
   = Raise (Exception_ "Failed to generate tutoring response: "
              (ExceptionMsg "LLM returned no usable response content."))) /\
  ((response = WithGenerations [] \/
    (exists others, response = WithGenerations ([] :: others)) \/
    response = ResponseList []) ->
   fst (generate_tutoring_response cap subject level question learning_style
          background language log)
   = Raise (Exception_ "Failed to generate tutoring response: " IndexError)).
Proof.
  intros Hllm Hreply.
  unfold generate_tutoring_response, mtry, mbind, get_llm, call_llm, lift,
    mret, mraise.
  rewrite Hllm, Hreply. split.
  - intros [-> | (items & ->)]; reflexivity.
  - intros [-> | [(others & ->) | ->]]; reflexivity.
Qed.

(** X16 on an empty list in reply. *)
Lemma X16_tutoring_unusable_replies_witness :
  fst (generate_tutoring_response (replying (ResponseList [])) "Physics" "Beginner"
         "Why?" "Visual" "Beginner" "English" [])
  = Raise (Exception_ "Failed to generate tutoring response: " IndexError).
Proof.
  apply (proj2 (X16_tutoring_unusable_replies (replying (ResponseList []))
                  "Physics" "Beginner" "Why?" "Visual" "Beginner" "English" []
                  (ResponseList []) eq_refl eq_refl)).
  right. right. reflexivity.
Defined.

(** ** The renderer *)

Lemma append_assoc (a b c : string) : (a ++ b) ++ c = a ++ b ++ c.
Proof.
  induction a as [| x a IH]; simpl; [reflexivity | now rewrite IH].
Qed.

Lemma append_empty_r (a : string) : a ++ "" = a.
Proof.
  induction a as [| x a IH]; simpl; [reflexivity | now rewrite IH].
Qed.

Lemma occurs_in_here (part after : string) : occurs_in part (part ++ after).
Proof.
  exists "", after. reflexivity.
Qed.

Lemma occurs_in_end (part : string) : occurs_in part part.
Proof.
  exists "", "". simpl. now rewrite append_empty_r.
Qed.

Lemma occurs_in_app_l (part a b : string) :
  occurs_in part a -> occurs_in part (a ++ b).
Proof.
  intros (before & after & ->). exists before, (after ++ b).
  now rewrite !append_assoc.
Qed.

Lemma occurs_in_app_r (part a b : string) :
  occurs_in part b -> occurs_in part (a ++ b).
Proof.
  intros (before & after & ->). exists (a ++ before), after.
  now rewrite !append_assoc.
Qed.

(** Looks for [part] among the operands of the appends of the goal. *)
Ltac find_occurrence :=
  solve [ apply occurs_in_end
        | apply occurs_in_here
        | apply occurs_in_app_l; find_occurrence
        | apply occurs_in_app_r; find_occurrence ].

Section Renderer.

Variable rt : PyRuntime.

Lemma render_options_markup (q : pyval) (number : string) (answer : pyval)
  (options : list pyval) (html : string) :
  field q "correct_answer" = Some answer ->
  render_options rt q number options html
  = Ok (html ++ options_markup rt number answer options).
Proof.
  intros Ha. destruct q as [| | | | | | d]; try discriminate. simpl in Ha.
  revert html. induction options as [| o rest IH]; intros html; simpl.
  - now rewrite append_empty_r.
  - rewrite Ha. simpl. rewrite IH. now rewrite append_assoc.
Qed.

(** The loop over the questions appends one card per question. *)
Lemma render_questions_cards (questions : list pyval) :
  Forall valid_question questions ->
  forall (i : nat) (html : string),
    render_questions rt i questions html = Ok (html ++ cards rt i questions).
Proof.
  induction 1 as [| q rest Hq _ IH]; intros i html.
  - simpl. now rewrite append_empty_r.
  - destruct Hq as [(text & options & answer & Hq & Ho & _ & Ha & _) [e He]].
    destruct q as [| | | | | | d]; try discriminate.
    cbn [render_questions cards]. unfold question_card.
    cbn [field py_getitem] in *. rewrite Hq, Ho, Ha, He. cbn [rbind py_iter].
    rewrite (render_options_markup (PDict d) _ answer options _ Ha).
    cbn [rbind]. rewrite IH. now rewrite !append_assoc.
Qed.

Lemma cards_app (before after : list pyval) (i : nat) :
  cards rt i (before ++ after)
  = cards rt i before ++ cards rt (i + List.length before) after.
Proof.
  revert i. induction before as [| q before IH]; intros i.
  - cbn [app cards List.length]. now rewrite Nat.add_0_r.
  - cbn [app cards List.length]. rewrite IH, append_assoc.
    now rewrite Nat.add_succ_r.
Qed.

Lemma card_occurs (questions : list pyval) (k : nat) (q : pyval) :
  nth_error questions k = Some q ->
  forall i, occurs_in (question_card rt (i + k) q) (cards rt i questions).
Proof.
  revert k. induction questions as [| q0 rest IH]; intros [| k] Hq i;
    simpl in Hq; try discriminate.
  - injection Hq as ->. rewrite Nat.add_0_r. cbn [cards]. apply occurs_in_here.
  - cbn [cards]. apply occurs_in_app_r.
    rewrite <- Nat.add_succ_comm. now apply IH.
Qed.

Lemma occurs_in_trans (a b c : string) :
  occurs_in a b -> occurs_in b c -> occurs_in a c.
Proof.
  intros Hab (before & after & ->).
  apply occurs_in_app_r, occurs_in_app_l, Hab.
Qed.

Lemma option_occurs (number : string) (answer o : pyval) (options : list pyval) :
  In o options ->
  occurs_in (html_option (lower_bool (py_eq o answer)) number (py_str rt o))
    (options_markup rt number answer options).
Proof.
  induction options as [| o' rest IH]; intros Hin; [contradiction |].
  unfold options_markup. cbn [fold_right]. fold (options_markup rt number answer rest).
  destruct Hin as [-> | Hin].
  - apply occurs_in_here.
  - apply occurs_in_app_r. now apply IH.
Qed.

End Renderer.

Lemma format_cards (rt : PyRuntime) (quiz : pyval) (questions : list pyval) :
  py_iter quiz = Ok questions ->
  Forall valid_question questions ->
  _format_quiz_with_reveal rt quiz
  = Ok (html_head ++ cards rt 0 questions ++ html_foot).
Proof.
  intros Hiter Hall. unfold _format_quiz_with_reveal. rewrite Hiter.
  cbn [rbind]. rewrite (render_questions_cards rt questions Hall). cbn [rbind].
  now rewrite append_assoc.
Qed.

(** X17.  On a quiz of valid questions the renderer returns the head of
    the document, one card per question in the order of the quiz, and the
    foot.  The card of a question is made of its own entries and its
    position alone: it is numbered one more than its index, whatever the
    other questions are. *)
Theorem X17_markup_is_head_cards_foot (rt : PyRuntime) (quiz : pyval)
  (questions : list pyval) :
  py_iter quiz = Ok questions ->
  Forall valid_question questions ->
  _format_quiz_with_reveal rt quiz
  = Ok (html_head ++ cards rt 0 questions ++ html_foot).
Proof.
  intros Hiter Hall. unfold _format_quiz_with_reveal. rewrite Hiter.
  cbn [rbind]. rewrite (render_questions_cards rt questions Hall). cbn [rbind].
  now rewrite append_assoc.
Qed.

(** X17 on the one-question quiz of the question with an empty
    explanation. *)
Lemma X17_markup_is_head_cards_foot_witness :
  Forall valid_question [blank_q] /\
  _format_quiz_with_reveal sample_runtime (PList [blank_q])
  = Ok (html_head ++ question_card sample_runtime 0 blank_q ++ html_foot).
Proof.
  assert (Forall valid_question [blank_q]) as Hall.
  { constructor; [| constructor]. split.
    - eexists _, _, _. simpl. repeat split; reflexivity.
    - eexists. reflexivity. }
  split; [exact Hall |].
  rewrite (X17_markup_is_head_cards_foot sample_runtime (PList [blank_q])
             [blank_q] eq_refl Hall).
  cbn [cards]. now rewrite append_empty_r.
Defined.

(** X18.  The renderer escapes nothing: the text of a question, each of
    its options, its answer and its explanation, when they are strings,
    occur in the markup letter for letter. *)
Theorem X18_texts_are_rendered_verbatim (rt : PyRuntime) (quiz : pyval)
  (questions : list pyval) (k : nat) (q : pyval) (key s : string) (html : string) :
  py_iter quiz = Ok questions ->
  Forall valid_question questions ->
  _format_quiz_with_reveal rt quiz = Ok html ->
  nth_error questions k = Some q ->
  (field q key = Some (PStr s) /\
   (key = "question" \/ key = "correct_answer" \/ key = "explanation")) \/
  (exists options, field q "options" = Some (PList options) /\ In (PStr s) options) ->
  occurs_in s html.
Proof.
  intros Hiter Hall Hhtml Hq Hs.
  assert (html = html_head ++ cards rt 0 questions ++ html_foot) as ->.
  { pose proof (format_cards rt quiz questions Hiter Hall) as Hcards.
    congruence. }
  apply occurs_in_app_r, occurs_in_app_l.
  apply occurs_in_trans with (b := question_card rt (0 + k) q);
    [| now apply card_occurs].
  assert (valid_question q) as Hvalid.
  { rewrite Forall_forall in Hall. apply Hall. eapply nth_error_In, Hq. }
  destruct Hvalid as [(text & options & answer & Hqt & Ho & _ & Ha & _) [e He]].
  unfold question_card. rewrite Hqt, Ho, Ha, He.
  destruct Hs as [[Hkey [-> | [-> | ->]]] | (options' & Ho' & Hin)].
  - rewrite Hqt in Hkey. injection Hkey as ->.
    apply occurs_in_app_l. unfold html_card_open. cbn [String.concat py_str].
    find_occurrence.
  - rewrite Ha in Hkey. injection Hkey as ->.
    apply occurs_in_app_r, occurs_in_app_r. unfold html_card_close.
    cbn [String.concat py_str]. find_occurrence.
  - rewrite He in Hkey. injection Hkey as ->.
    apply occurs_in_app_r, occurs_in_app_r. unfold html_card_close.
    cbn [String.concat py_str]. find_occurrence.
  - rewrite Ho in Ho'. injection Ho' as <-.
    apply occurs_in_app_r, occurs_in_app_l.
    apply occurs_in_trans
      with (b := html_option (lower_bool (py_eq (PStr s) answer))
                   (str_of_int (Z.of_nat (0 + k) + 1)) (py_str rt (PStr s)));
      [| now apply option_occurs].
    unfold html_option. cbn [String.concat py_str]. find_occurrence.
Qed.

(** X18 on a question whose text is a script element. *)
Lemma X18_texts_are_rendered_verbatim_witness :
  exists html,
    _format_quiz_with_reveal sample_runtime (PList [script_q]) = Ok html /\
    occurs_in "<script>alert(1)</script>" html.
Proof.
  assert (Forall valid_question [script_q]) as Hall.
  { constructor; [| constructor]. split.
    - eexists _, _, _. simpl. repeat split; reflexivity.
    - eexists. reflexivity. }
  destruct (format_total sample_runtime (PList [script_q]) [script_q] eq_refl Hall)
    as [html Hhtml].
  exists html. split; [exact Hhtml |].
  apply (X18_texts_are_rendered_verbatim sample_runtime (PList [script_q])
           [script_q] 0 script_q "question" "<script>alert(1)</script>" html
           eq_refl Hall Hhtml eq_refl).
  left. split; [reflexivity | left; reflexivity].
Defined.

Lemma render_questions_app (rt : PyRuntime) (before rest : list pyval) :
  Forall valid_question before ->
  forall (i : nat) (html : string),
    render_questions rt i (before ++ rest) html
    = render_questions rt (i + List.length before) rest
        (html ++ cards rt i before).
Proof.
  induction 1 as [| q before Hq _ IH]; intros i html.
  - cbn [app cards List.length]. now rewrite Nat.add_0_r, append_empty_r.
  - destruct Hq as [(text & options & answer & Hq & Ho & _ & Ha & _) [e He]].
    destruct q as [| | | | | | d]; try discriminate.
    cbn [app render_questions cards List.length]. unfold question_card.
    cbn [field py_getitem] in *. rewrite Hq, Ho, Ha, He. cbn [rbind py_iter].
    rewrite (render_options_markup rt (PDict d) _ answer options _ Ha).
    cbn [rbind]. rewrite IH. rewrite !append_assoc.
    now rewrite Nat.add_succ_r.
Qed.

(** X19.  The renderer needs the explanation entry that the backfilling
    step supplies: on a quiz in which a question that passes validation has
    no [explanation], it raises [KeyError] for that key when it reaches the
    question, whatever comes after. *)
Theorem X19_renderer_needs_explanations (rt : PyRuntime)
  (before after : list pyval) (q : pyval) :
  Forall valid_question before ->
  checked_question q ->
  field q "explanation" = None ->
  _format_quiz_with_reveal rt (PList (before ++ q :: after))
  = Raise (KeyError "explanation").
Proof.
  intros Hbefore (text & options & answer & Hq & Ho & _ & Ha & _) He.
  unfold _format_quiz_with_reveal. cbn [py_iter rbind].
  rewrite (render_questions_app rt before (q :: after) Hbefore).
  destruct q as [| | | | | | d]; try discriminate.
  cbn [render_questions]. cbn [field py_getitem] in *.
  rewrite Hq, Ho, Ha, He. cbn [rbind py_iter].
  rewrite (render_options_markup rt (PDict d) _ answer options _ Ha).
  reflexivity.
Qed.

(** X19 on the reply of the specification before backfilling: its first
    question has no explanation. *)
Lemma X19_renderer_needs_explanations_witness :
  checked_question algebra_q1 /\
  field algebra_q1 "explanation" = None /\
  _format_quiz_with_reveal sample_runtime (PList ([] ++ algebra_q1 :: [algebra_q2]))
  = Raise (KeyError "explanation").
Proof.
  assert (checked_question algebra_q1) as Hq
    by (apply validate_question_ok; reflexivity).
  split; [exact Hq |]. split; [reflexivity |].
  exact (X19_renderer_needs_explanations sample_runtime [] [algebra_q2] algebra_q1
           (Forall_nil _) Hq eq_refl).
Defined.

(** X20.  In the markup of a quiz of valid questions, every option of the
    question at index [k] has its [div], in the card numbered [k + 1],
    flagged [true] when the option equals the answer and [false] when it
    does not; and an answer that is a string has an option flagged
    [true]. *)
Theorem X20_options_are_flagged_by_equality (rt : PyRuntime) (quiz : pyval)
  (questions options : list pyval) (k : nat) (q answer : pyval) (html : string) :
  py_iter quiz = Ok questions ->
  Forall valid_question questions ->
  _format_quiz_with_reveal rt quiz = Ok html ->
  nth_error questions k = Some q ->
  field q "options" = Some (PList options) ->
  field q "correct_answer" = Some answer ->
  (forall o, In o options ->
     occurs_in
       (html_option (lower_bool (py_eq o answer)) (str_of_int (Z.of_nat k + 1))
          (py_str rt o)) html) /\
  (forall s, answer = PStr s ->
     occurs_in (html_option "true" (str_of_int (Z.of_nat k + 1)) s) html).
Proof.
  intros Hiter Hall Hhtml Hq Ho Ha.
  assert (html = html_head ++ cards rt 0 questions ++ html_foot) as ->.
  { pose proof (format_cards rt quiz questions Hiter Hall) as Hcards.
    congruence. }
  assert (valid_question q) as Hvalid.
  { rewrite Forall_forall in Hall. apply Hall. eapply nth_error_In, Hq. }
  destruct Hvalid as [(text & options' & answer' & Hqt & Ho' & _ & Ha' & Hin) [e He]].
  rewrite Ho in Ho'. injection Ho' as <-. rewrite Ha in Ha'. injection Ha' as <-.
  assert (forall o, In o options ->
            occurs_in
              (html_option (lower_bool (py_eq o answer))
                 (str_of_int (Z.of_nat k + 1)) (py_str rt o))
              (html_head ++ cards rt 0 questions ++ html_foot)) as Hflags.
  { intros o Ho_in.
    apply occurs_in_app_r, occurs_in_app_l.
    apply occurs_in_trans with (b := question_card rt (0 + k) q);
      [| now apply card_occurs].
    unfold question_card. rewrite Hqt, Ho, Ha, He.
    apply occurs_in_app_r, occurs_in_app_l.
    now apply option_occurs. }
  split; [exact Hflags |].
  intros s ->.
  apply string_answer_among in Hin.
  specialize (Hflags (PStr s) Hin).
  simpl in Hflags. now rewrite String.eqb_refl in Hflags.
Qed.

(** X20 on the second question of the specification's example: its
    answer [1] is the option flagged [true] in card 2. *)
Lemma X20_options_are_flagged_by_equality_witness :
  exists html,
    _format_quiz_with_reveal sample_runtime (quiz_data algebra_result) = Ok html /\
    occurs_in (html_option "true" "2" "1") html /\
    occurs_in (html_option "false" "2" "0") html.
Proof.
  assert (Forall valid_question [algebra_q1_backfilled; algebra_q2]) as Hall.
  { repeat constructor; try (eexists _, _, _; simpl; repeat split; reflexivity);
      eexists; reflexivity. }
  destruct (format_total sample_runtime (quiz_data algebra_result) _ eq_refl Hall)
    as [html Hhtml].
  exists html. split; [exact Hhtml |].
  destruct (X20_options_are_flagged_by_equality sample_runtime
              (quiz_data algebra_result) _ [PStr "0"; PStr "1"; PStr "2"; PStr "3"]
              1 algebra_q2 (PStr "1") html eq_refl Hall Hhtml eq_refl eq_refl
              eq_refl) as [Hflags Htrue].
  split.
  - exact (Htrue "1" eq_refl).
  - exact (Hflags (PStr "0") (or_introl eq_refl)).
Defined.

(** ** The HTTP handlers *)

(** A run that was asked for the markup returns it. *)
Lemma generate_quiz_markup_present (rt : PyRuntime) (cap : Capability)
  (subject level : string) (n : Z) (log log' : list string) (r : quiz_result) :
  generate_quiz rt cap subject level n true log = (Ok r, log') ->
  exists html, formatted_quiz r = Some html.
Proof.
  run_pipeline.
  destruct (ChatOpenAI cap) as [[] | e]; [| discriminate].
  destruct (reply cap (List.length log) (_create_quiz_prompt subject level n))
    as [[content | | |] | e]; simpl; try discriminate.
  destruct (_parse_quiz_response rt content subject n) as [quiz | e];
    [| discriminate].
  destruct (_format_quiz_with_reveal rt quiz) as [html | e]; [| discriminate].
  intros H. injection H as <- _. simpl. eauto.
Qed.

Lemma generate_quiz_markup_absent (rt : PyRuntime) (cap : Capability)
  (subject level : string) (n : Z) (log log' : list string) (r : quiz_result) :
  generate_quiz rt cap subject level n false log = (Ok r, log') ->
  formatted_quiz r = None.
Proof.
  run_pipeline.
  destruct (ChatOpenAI cap) as [[] | e]; [| discriminate].
  destruct (reply cap (List.length log) (_create_quiz_prompt subject level n))
    as [[content | | |] | e]; simpl; try discriminate.
  destruct (_parse_quiz_response rt content subject n) as [quiz | e];
    [| discriminate].
  intros H. injection H as <- _. reflexivity.
Qed.

(** X21.  The handler of [POST /quiz] returns what the pipeline returned:
    the quiz data under [quiz], and the markup under [formatted_quiz]
    exactly when [reveal_format] is [True].  Its two lookups in the result
    of the pipeline never fail. *)
Theorem X21_quiz_handler_returns_the_quiz (rt : PyRuntime) (cap : Capability)
  (data : Api.QuizRequest) (log log' : list string) (r : quiz_result) :
  generate_quiz rt cap (Api.quiz_subject data) (Api.quiz_level data)
    (Api.num_questions data) (Api.truthy (Api.reveal_format data)) log
    = (Ok r, log') ->
  Api.generate_quiz_api rt cap data log
    = (Api.Returns {| Api.quiz := quiz_data r;
                      Api.formatted_quiz := formatted_quiz r |}, log') /\
  (formatted_quiz r <> None <-> Api.reveal_format data = Some true).
Proof.
  intros Hrun.
  unfold Api.generate_quiz_api, Api.guarded, mbind. rewrite Hrun.
  destruct (Api.reveal_format data) as [[] |] eqn:Hflag; simpl in *.
  - destruct (generate_quiz_markup_present _ _ _ _ _ _ _ _ Hrun) as [html Hhtml].
    unfold lift, getitem_quiz_data, getitem_formatted_quiz, mret.
    rewrite Hhtml. split; [reflexivity |]. split; [reflexivity | discriminate].
  - pose proof (generate_quiz_markup_absent _ _ _ _ _ _ _ _ Hrun) as Hnone.
    rewrite Hnone. split; [reflexivity |]. split; [congruence | discriminate].
  - pose proof (generate_quiz_markup_absent _ _ _ _ _ _ _ _ Hrun) as Hnone.
    rewrite Hnone. split; [reflexivity |]. split; [congruence | discriminate].
Qed.

(** X21 on a request that leaves [reveal_format] at [None]. *)
Lemma X21_quiz_handler_returns_the_quiz_witness :
  Api.generate_quiz_api sample_runtime (answering algebra_text)
    {| Api.quiz_subject := "Algebra"; Api.quiz_level := "Beginner";
       Api.num_questions := 2; Api.reveal_format := None |} []
  = (Api.Returns {| Api.quiz := PList [algebra_q1_backfilled; algebra_q2];
                    Api.formatted_quiz := None |},
     [_create_quiz_prompt "Algebra" "Beginner" 2]).
Proof.
  assert (generate_quiz sample_runtime (answering algebra_text) "Algebra"
            "Beginner" 2 false []
          = (Ok algebra_result, [_create_quiz_prompt "Algebra" "Beginner" 2]))
    as Hrun by (vm_compute; reflexivity).
  exact (proj1 (X21_quiz_handler_returns_the_quiz sample_runtime
                  (answering algebra_text)
                  {| Api.quiz_subject := "Algebra"; Api.quiz_level := "Beginner";
                     Api.num_questions := 2; Api.reveal_format := None |}
                  [] _ algebra_result Hrun)).
Defined.

(** X22.  The handler of [GET /quiz-html] returns the markup whenever the
    pipeline returns: the key [formatted_quiz] it reads is always there. *)
Theorem X22_html_handler_returns_the_markup (rt : PyRuntime) (cap : Capability)
  (subject level : string) (n : Z) (log log' : list string) (r : quiz_result) :
  generate_quiz rt cap subject level n true log = (Ok r, log') ->
  exists html,
    formatted_quiz r = Some html /\
    _format_quiz_with_reveal rt (quiz_data r) = Ok html /\
    Api.get_quiz_html rt cap subject level n log = (Api.Returns html, log').
Proof.
  intros Hrun.
  destruct (generate_quiz_markup_present _ _ _ _ _ _ _ _ Hrun) as [html Hhtml].
  exists html. split; [exact Hhtml |]. split.
  - destruct (generate_quiz_returns _ _ _ _ _ _ _ _ _ Hrun)
      as (content & _ & _ & _ & Hformat).
    rewrite Hhtml in Hformat.
    destruct (_format_quiz_with_reveal rt (quiz_data r)); congruence.
  - unfold Api.get_quiz_html, Api.guarded, mbind. rewrite Hrun.
    unfold lift, getitem_formatted_quiz. now rewrite Hhtml.
Qed.

(** X22 on the reply with one question. *)
Lemma X22_html_handler_returns_the_markup_witness :
  exists html,
    _format_quiz_with_reveal sample_runtime (PList [blank_q]) = Ok html /\
    Api.get_quiz_html sample_runtime (answering blank_text) "Algebra" "Beginner" 1 []
    = (Api.Returns html, [_create_quiz_prompt "Algebra" "Beginner" 1]).
Proof.
  destruct (generate_quiz sample_runtime (answering blank_text) "Algebra"
              "Beginner" 1 true []) as [[r | e] log'] eqn:Hrun;
    [| vm_compute in Hrun; discriminate Hrun].
  destruct (X22_html_handler_returns_the_markup _ _ _ _ _ _ _ _ Hrun)
    as (html & _ & Hformat & Hget).
  assert (quiz_data r = PList [blank_q]
          /\ log' = [_create_quiz_prompt "Algebra" "Beginner" 1]) as [Hdata Hlog].
  { destruct (generate_quiz_returns _ _ _ _ _ _ _ _ _ Hrun)
      as (content & Hreply & Hparse & Hlog & _).
    simpl in Hreply. injection Hreply as <-.
    split; [| exact Hlog].
    assert (_parse_quiz_response sample_runtime blank_text "Algebra" 1
            = Ok (PList [blank_q])) as Hp by (vm_compute; reflexivity).
    congruence. }
  exists html. rewrite <- Hdata, <- Hlog. split; [exact Hformat | exact Hget].
Defined.

(** X23.  The handler of [GET /quiz-html] puts no bound on the count: with
    a count that is not positive and a reply on which the decoder raises
    [JSONDecodeError], the fallback
    quiz is empty and the handler returns a page with no question, the head
    followed by the foot, not an error. *)
Theorem X23_html_handler_accepts_any_count (rt : PyRuntime) (cap : Capability)
  (subject level content : string) (n : Z) (log : list string) :
  ChatOpenAI cap = Ok tt ->
  reply cap (List.length log) (_create_quiz_prompt subject level n)
    = Ok (WithContent content) ->
  json_loads rt content = Raise JSONDecodeError ->
  n <= 0 ->
  Api.get_quiz_html rt cap subject level n log
  = (Api.Returns (html_head ++ html_foot),
     (log ++ [_create_quiz_prompt subject level n])%list).
Proof.
  intros Hllm Hreply Hload Hn.
  assert (_parse_quiz_response rt content subject n = Ok (PList [])) as Hparse.
  { unfold _parse_quiz_response, parse_quiz_body. rewrite Hload. simpl.
    unfold _create_fallback_quiz.
    replace (Z.to_nat n) with 0%nat by lia. reflexivity. }
  unfold Api.get_quiz_html, Api.guarded, mbind. run_pipeline.
  rewrite Hllm, Hreply. simpl. rewrite Hparse. reflexivity.
Qed.

(** X23 on the count [-3]. *)
Lemma X23_html_handler_accepts_any_count_witness :
  -3 <= 0 /\
  Api.get_quiz_html sample_runtime (answering "Sorry, I cannot help.") "Algebra"
    "Beginner" (-3) []
  = (Api.Returns (html_head ++ html_foot),
     [_create_quiz_prompt "Algebra" "Beginner" (-3)]).
Proof.
  split; [lia |].
  apply (X23_html_handler_accepts_any_count sample_runtime
           (answering "Sorry, I cannot help.") "Algebra" "Beginner"
           "Sorry, I cannot help." (-3) []);
    [reflexivity | reflexivity | reflexivity | lia].
Defined.

(** X24.  A handler that fails, fails with status 500, and the detail of
    the error is the prefix of the route, the prefix of the generator and
    the message of the cause, in that order; nothing else is ever raised by
    the three handlers. *)
Theorem X24_handlers_fail_with_500 (rt : PyRuntime) (cap : Capability)
  (tutor : Api.TutorRequest) (data : Api.QuizRequest) (subject level : string)
  (n : Z) (log log' : list string) (e : Api.http_exception) :
  (Api.get_tutoring_response cap tutor log = (Api.Raises e, log') ->
   exists cause,
     e = Api.HTTPException 500 "Error generating explanation: "
           (Exception_ "Failed to generate tutoring response: " cause)) /\
  (Api.generate_quiz_api rt cap data log = (Api.Raises e, log') ->
   exists cause,
     e = Api.HTTPException 500 "Error generating quiz: "
           (Exception_ "Failed to generate quiz: " cause)) /\
  (Api.get_quiz_html rt cap subject level n log = (Api.Raises e, log') ->
   exists cause,
     e = Api.HTTPException 500 "Error generating quiz HTML: "
           (Exception_ "Failed to generate quiz: " cause)).
Proof.
  split; [| split].
  - unfold Api.get_tutoring_response, Api.guarded, mbind.
    destruct (generate_tutoring_response cap _ _ _ _ _ _ log)
      as [[text | e'] log''] eqn:Hrun; [discriminate |].
    intros H. injection H as <- _.
    destruct (proj2 (wrapped_errors rt cap (Api.subject tutor) (Api.level tutor)
                       (Api.question tutor) (Api.learning_style tutor)
                       (Api.background tutor) (Api.language tutor) 0 false log
                       log'' e') Hrun) as [cause ->].
    eauto.
  - unfold Api.generate_quiz_api, Api.guarded, mbind.
    destruct (generate_quiz rt cap _ _ _ _ log) as [[r | e'] log''] eqn:Hrun.
    + destruct (Api.truthy (Api.reveal_format data)) eqn:Hflag.
      * destruct (generate_quiz_markup_present _ _ _ _ _ _ _ _ Hrun)
          as [html Hhtml].
        unfold lift, getitem_quiz_data, getitem_formatted_quiz, mret.
        rewrite Hhtml. discriminate.
      * discriminate.
    + intros H. injection H as <- _.
      destruct (proj1 (wrapped_errors rt cap _ _ "" "" "" "" _ _ log log'' e')
                  Hrun) as [cause ->].
      eauto.
  - unfold Api.get_quiz_html, Api.guarded, mbind.
    destruct (generate_quiz rt cap subject level n true log)
      as [[r | e'] log''] eqn:Hrun.
    + destruct (generate_quiz_markup_present _ _ _ _ _ _ _ _ Hrun)
        as [html Hhtml].
      unfold lift, getitem_formatted_quiz. rewrite Hhtml. discriminate.
    + intros H. injection H as <- _.
      destruct (proj1 (wrapped_errors rt cap _ _ "" "" "" "" _ _ log log'' e')
                  Hrun) as [cause ->].
      eauto.
Qed.

(** X24 on a process with no API key: the three handlers fail with status
    500 and the three prefixes in a row. *)
Lemma X24_handlers_fail_with_500_witness :
  fst (Api.get_tutoring_response unconfigured
         {| Api.subject := "Physics"; Api.level := "Beginner";
            Api.question := "Why?"; Api.learning_style := "Text-Based";
            Api.background := "Unknown"; Api.language := "English" |} [])
  = Api.Raises
      (Api.HTTPException 500 "Error generating explanation: "
         (Exception_ "Failed to generate tutoring response: "
            (Exception_ "Failed to initialize AI model: "
               (ServiceError "no API key")))) /\
  exists cause,
    Api.HTTPException 500 "Error generating explanation: "
      (Exception_ "Failed to generate tutoring response: "
         (Exception_ "Failed to initialize AI model: " (ServiceError "no API key")))
    = Api.HTTPException 500 "Error generating explanation: "
        (Exception_ "Failed to generate tutoring response: " cause).
Proof.
  assert (Api.get_tutoring_response unconfigured
            {| Api.subject := "Physics"; Api.level := "Beginner";
               Api.question := "Why?"; Api.learning_style := "Text-Based";
               Api.background := "Unknown"; Api.language := "English" |} []
          = (Api.Raises
               (Api.HTTPException 500 "Error generating explanation: "
                  (Exception_ "Failed to generate tutoring response: "
                     (Exception_ "Failed to initialize AI model: "
                        (ServiceError "no API key")))), []))
    as Hrun by reflexivity.
  split; [now rewrite Hrun |].
  exact (proj1 (X24_handlers_fail_with_500 sample_runtime unconfigured _
                  {| Api.quiz_subject := "Algebra"; Api.quiz_level := "Beginner";
                     Api.num_questions := 2; Api.reveal_format := None |}
                  "Algebra" "Beginner" 2 [] [] _) Hrun).
Defined.

(** ** Replies that are JSON but no batch of objects *)

(** X25.  A reply that decodes to [null], a bool or a number is not
    recovered: [generate_quiz] raises the [TypeError] of the loop over it
    behind its prefix, after its one call, with or without the markup asked
    for. *)
Theorem X25_scalar_reply_raises (rt : PyRuntime) (cap : Capability)
  (subject level content : string) (n : Z) (reveal : bool) (log : list string)
  (quiz : pyval) :
  ChatOpenAI cap = Ok tt ->
  reply cap (List.length log) (_create_quiz_prompt subject level n)
    = Ok (WithContent content) ->
  json_loads rt content = Ok quiz ->
  is_scalar quiz = true ->
  generate_quiz rt cap subject level n reveal log
  = (Raise (Exception_ "Failed to generate quiz: " TypeError),
     (log ++ [_create_quiz_prompt subject level n])%list).
Proof.
  intros Hllm Hreply Hload Hscalar.
  apply (generate_quiz_raises rt cap subject level n reveal log Hllm content Hreply).
  apply scalar_document_raises with (quiz := quiz); [exact Hload |].
  destruct quiz; try discriminate; reflexivity.
Qed.

(** X25 on the reply [true]. *)
Lemma X25_scalar_reply_raises_witness :
  generate_quiz (decoding [PBool true]) (answering "true") "Algebra" "Beginner" 2
    true []
  = (Raise (Exception_ "Failed to generate quiz: " TypeError),
     [_create_quiz_prompt "Algebra" "Beginner" 2]).
Proof.
  apply (X25_scalar_reply_raises (decoding [PBool true]) (answering "true")
           "Algebra" "Beginner" "true" 2 true [] (PBool true));
    reflexivity.
Defined.

(** X26.  An element of the batch that is a JSON string is tested for the
    three key names as substrings.  A string that lacks one of them is
    rejected like an object without the key, and the fallback quiz is
    returned; a string that contains the three of them gets past that test,
    and indexing it by a key raises [TypeError], which is not recovered. *)
Theorem X26_string_element (rt : PyRuntime) (content subject : string) (n : Z)
  (before after : list pyval) (s : string) :
  json_loads rt content = Ok (PList (before ++ PStr s :: after)) ->
  Forall checked_question before ->
  _parse_quiz_response rt content subject n
  = (if str_contains "question" s && str_contains "options" s
        && str_contains "correct_answer" s
     then Raise TypeError
     else Ok (_create_fallback_quiz subject n)).
Proof.
  intros Hload Hbefore.
  unfold _parse_quiz_response, parse_quiz_body, _validate_quiz_data.
  rewrite Hload. cbn [rbind py_iter].
  rewrite (validate_questions_app before (PStr s :: after) Hbefore).
  cbn [validate_questions]. unfold validate_question.
  cbn [all_keys_in py_in rbind].
  destruct (str_contains "question" s); [| reflexivity].
  destruct (str_contains "options" s); [| reflexivity].
  destruct (str_contains "correct_answer" s); reflexivity.
Qed.

(** X26 on a string with the three names, after a valid question, and on
    a string without them. *)
Lemma X26_string_element_witness :
  _parse_quiz_response
    (decoding [PList [algebra_q2; PStr "question, options, correct_answer"]])
    (json_text (PList [algebra_q2; PStr "question, options, correct_answer"]))
    "Algebra" 2
  = Raise TypeError /\
  _parse_quiz_response (decoding [PList [PStr "no quiz today"]])
    (json_text (PList [PStr "no quiz today"])) "Algebra" 2
  = Ok (_create_fallback_quiz "Algebra" 2).
Proof.
  split.
  - rewrite (X26_string_element _ _ "Algebra" 2 [algebra_q2] []
               "question, options, correct_answer");
      [reflexivity | vm_compute; reflexivity
      | apply validate_questions_ok; reflexivity].
  - rewrite (X26_string_element _ _ "Algebra" 2 [] [] "no quiz today");
      [reflexivity | vm_compute; reflexivity | constructor].
Defined.

(** ** The renderer as a function of the quiz data *)

Lemma question_card_entries (rt : PyRuntime) (i : nat) (q q' : pyval) :
  same_rendered_entries q q' -> question_card rt i q = question_card rt i q'.
Proof.
  intros (Hq & Ho & Ha & He). unfold question_card.
  now rewrite Hq, Ho, Ha, He.
Qed.

Lemma cards_entries (rt : PyRuntime) (questions questions' : list pyval) :
  Forall2 same_rendered_entries questions questions' ->
  forall i, cards rt i questions = cards rt i questions'.
Proof.
  induction 1 as [| q q' rest rest' Hq _ IH]; intros i; cbn [cards];
    [reflexivity |].
  now rewrite (question_card_entries rt i q q' Hq), IH.
Qed.

(** What a run that was asked for the markup returns as markup. *)
Lemma generate_quiz_markup (rt : PyRuntime) (cap : Capability)
  (subject level : string) (n : Z) (log log' : list string) (r : quiz_result) :
  generate_quiz rt cap subject level n true log = (Ok r, log') ->
  _format_quiz_with_reveal rt (quiz_data r)
    = Ok (html_head ++ cards rt 0 (questions_of (quiz_data r)) ++ html_foot) /\
  formatted_quiz r
    = Some (html_head ++ cards rt 0 (questions_of (quiz_data r)) ++ html_foot) /\
  log' = (log ++ [_create_quiz_prompt subject level n])%list.
Proof.
  intros Hrun.
  destruct (generate_quiz_returns _ _ _ _ _ _ _ _ _ Hrun)
    as (content & _ & Hparse & Hlog & Hhtml).
  destruct (parse_delivers _ _ _ _ _ Hparse) as (questions & Hiter & Hall & _).
  pose proof (format_cards rt (quiz_data r) questions Hiter Hall) as Hcards.
  unfold questions_of. rewrite Hiter.
  split; [exact Hcards |]. split; [| exact Hlog].
  now rewrite Hhtml, Hcards.
Qed.

(** C8.  The markup [generate_quiz] returns is the renderer's output on the
    quiz data it returns, and that output is the head of the document, the
    cards of the questions and the foot: a text made of the constants of
    the template and of four entries of each question, in which no clock,
    random number or reply of the model has a part, and for which no call
    is made, the log of a run holding the one prompt of the generation.  So
    two runs that deliver the same quiz data, or only quiz data with the
    same four entries question for question, deliver the same markup, byte
    for byte, whatever the model, the request and the calls made before
    were. *)
Theorem C8_markup_determined_by_quiz_data (rt : PyRuntime)
  (cap1 cap2 : Capability) (subject1 level1 subject2 level2 : string)
  (n1 n2 : Z) (log1 log1' log2 log2' : list string) (r1 r2 : quiz_result) :
  generate_quiz rt cap1 subject1 level1 n1 true log1 = (Ok r1, log1') ->
  generate_quiz rt cap2 subject2 level2 n2 true log2 = (Ok r2, log2') ->
  (quiz_data r1 = quiz_data r2 \/
   Forall2 same_rendered_entries (questions_of (quiz_data r1))
     (questions_of (quiz_data r2))) ->
  formatted_quiz r1 = formatted_quiz r2 /\
  _format_quiz_with_reveal rt (quiz_data r1)
    = Ok (html_head ++ cards rt 0 (questions_of (quiz_data r1)) ++ html_foot) /\
  formatted_quiz r1
    = Some (html_head ++ cards rt 0 (questions_of (quiz_data r1)) ++ html_foot) /\
  log1' = (log1 ++ [_create_quiz_prompt subject1 level1 n1])%list /\
  log2' = (log2 ++ [_create_quiz_prompt subject2 level2 n2])%list.
Proof.
  intros Hrun1 Hrun2 Hsame.
  destruct (generate_quiz_markup _ _ _ _ _ _ _ _ Hrun1) as (Hformat1 & Hhtml1 & Hlog1).
  destruct (generate_quiz_markup _ _ _ _ _ _ _ _ Hrun2) as (_ & Hhtml2 & Hlog2).
  repeat split; auto.
  rewrite Hhtml1, Hhtml2.
  destruct Hsame as [-> | Hsame]; [reflexivity |].
  now rewrite (cards_entries rt _ _ Hsame).
Qed.

(** C8 on two runs that differ in the model, the request and the calls
    made before; the question of the second has an entry more than the
    question of the first, and its entries in another order. *)
Lemma C8_markup_determined_by_quiz_data_witness :
  exists r1 r2 log1' log2',
    generate_quiz (decoding [PList [blank_q]; PList [annotated_q]])
      (answering (json_text (PList [blank_q]))) "Algebra" "Beginner" 1 true []
      = (Ok r1, log1') /\
    generate_quiz (decoding [PList [blank_q]; PList [annotated_q]])
      (answering_later (json_text (PList [annotated_q]))) "History" "Advanced" 7
      true ["an earlier prompt"] = (Ok r2, log2') /\
    quiz_data r1 = PList [blank_q] /\
    quiz_data r2 = PList [annotated_q] /\
    Forall2 same_rendered_entries [blank_q] [annotated_q] /\
    formatted_quiz r1 = formatted_quiz r2.
Proof.
  destruct (generate_quiz (decoding [PList [blank_q]; PList [annotated_q]])
              (answering (json_text (PList [blank_q]))) "Algebra" "Beginner" 1
              true []) as [[r1 | e1] log1'] eqn:Hrun1;
    [| vm_compute in Hrun1; discriminate Hrun1].
  destruct (generate_quiz (decoding [PList [blank_q]; PList [annotated_q]])
              (answering_later (json_text (PList [annotated_q]))) "History"
              "Advanced" 7 true ["an earlier prompt"])
    as [[r2 | e2] log2'] eqn:Hrun2;
    [| vm_compute in Hrun2; discriminate Hrun2].
  assert (quiz_data r1 = PList [blank_q]) as Hdata1.
  { vm_compute in Hrun1. injection Hrun1 as <- _. reflexivity. }
  assert (quiz_data r2 = PList [annotated_q]) as Hdata2.
  { vm_compute in Hrun2. injection Hrun2 as <- _. reflexivity. }
  assert (Forall2 same_rendered_entries [blank_q] [annotated_q]) as Hsame.
  { constructor; [| constructor]. repeat split; reflexivity. }
  exists r1, r2, log1', log2'.
  split; [reflexivity |]. split; [reflexivity |].
  split; [exact Hdata1 |]. split; [exact Hdata2 |]. split; [exact Hsame |].
  apply (C8_markup_determined_by_quiz_data _ _ _ _ _ _ _ _ _ _ _ _ _ _ _
           Hrun1 Hrun2).
  right. unfold questions_of. rewrite Hdata1, Hdata2. exact Hsame.
Defined.
